(** * Tiered question answering and the curated Q&A store

    A shallow embedding of two Python modules of the personal-finance RAG
    pipeline:

    - [src/core/hybrid_rag_pipeline.py]: the three-tier router
      [HybridRAGPipeline.ask_question] with its two retrieval wrappers
      [search_qa_data] and [search_documents] and the ungrounded generation
      [get_base_llm_answer];
    - [src/utils/qa_content_manager.py]: the curated knowledge base
      [QAContentManager] with load, save, add, update, delete, validate
      and import.

    Python exceptions are values of [exn] carried by [Raise]; the objects a
    [QAContentManager] shares between its entry list and its category
    buckets live in an explicit heap. *)

From Stdlib Require Import Floats Ascii String.
From stdpp Require Import gmap strings list.

(** ** Python values used by both modules *)

Inductive exn : Type :=
| KeyError (key : string)
| TypeError (msg : string)
| JSONDecodeError
| OSError (msg : string)
| AttributeError (msg : string)
| Exception (msg : string).

Inductive result (A : Type) : Type :=
| Ok (a : A)
| Raise (e : exn).
Arguments Ok {A} a.
Arguments Raise {A} e.

(** The line feed of Python's ['\n']. *)
Definition nl : string := String "010"%char EmptyString.

(** A Python [str] is represented by its UTF-8 encoding, a sequence of
    bytes. Cutting at a line feed, replacing or looking for an ASCII
    label, prefix and substring tests, and concatenation give the same
    result on the encoding as on the characters. [strip] knows, by their
    encodings, all the characters that [str.isspace()] accepts.
    Lower-casing follows the Unicode character database, which is not
    reproduced here: [lower] is a parameter, fixed on ASCII text only. *)
Module PyStr.

(** The whitespace characters one byte long: U+0009 to U+000D, U+001C to
    U+001F and the space. *)
Definition isspace (c : ascii) : bool :=
  let n := nat_of_ascii c in
  (((9 <=? n) && (n <=? 13)) || ((28 <=? n) && (n <=? 32)))%nat.

(** Two bytes long: U+0085 and U+00A0. *)
Definition isspace2 (c1 c2 : ascii) : bool :=
  let n2 := nat_of_ascii c2 in
  ((nat_of_ascii c1 =? 194) && ((n2 =? 133) || (n2 =? 160)))%nat.

(** Three bytes long: U+1680, U+2000 to U+200A, U+2028, U+2029, U+202F,
    U+205F and U+3000. *)
Definition isspace3 (c1 c2 c3 : ascii) : bool :=
  let n1 := nat_of_ascii c1 in
  let n2 := nat_of_ascii c2 in
  let n3 := nat_of_ascii c3 in
  (((n1 =? 225) && (n2 =? 154) && (n3 =? 128))
   || ((n1 =? 226) && (n2 =? 128)
       && (((128 <=? n3) && (n3 <=? 138))
           || (n3 =? 168) || (n3 =? 169) || (n3 =? 175)))
   || ((n1 =? 226) && (n2 =? 129) && (n3 =? 159))
   || ((n1 =? 227) && (n2 =? 128) && (n3 =? 128)))%nat.

(** [s.lstrip()] *)
Fixpoint lstrip (s : string) : string :=
  match s with
  | EmptyString => EmptyString
  | String c1 s1 =>
      if isspace c1 then lstrip s1
      else match s1 with
           | EmptyString => s
           | String c2 s2 =>
               if isspace2 c1 c2 then lstrip s2
               else match s2 with
                    | EmptyString => s
                    | String c3 s3 => if isspace3 c1 c2 c3 then lstrip s3 else s
                    end
           end
  end.

(** [s] is made of whitespace only. *)
Definition blank (s : string) : bool :=
  match lstrip s with EmptyString => true | String _ _ => false end.

(** [s.rstrip()]: [s] up to its longest blank end. *)
Fixpoint rstrip (s : string) : string :=
  match s with
  | EmptyString => EmptyString
  | String c s' => if blank s then EmptyString else String c (rstrip s')
  end.

(** [s.strip()] *)
Definition strip (s : string) : string := rstrip (lstrip s).

Definition lower_char (c : ascii) : ascii :=
  let n := nat_of_ascii c in
  if ((65 <=? n) && (n <=? 90))%nat then ascii_of_nat (n + 32) else c.

(** [s.lower()] on ASCII text: the letters A to Z are replaced. *)
Fixpoint ascii_lower (s : string) : string :=
  match s with
  | EmptyString => EmptyString
  | String c s' => String (lower_char c) (ascii_lower s')
  end.

(** [s.isascii()] *)
Fixpoint isascii (s : string) : bool :=
  match s with
  | EmptyString => true
  | String c s' => (nat_of_ascii c <? 128)%nat && isascii s'
  end.

(** [s.lower()], whatever Unicode's lower-casing does outside ASCII. *)
Class Lowercase : Type := {
  lower : string -> string;
  lower_isascii : forall s, isascii s = true -> lower s = ascii_lower s
}.

(** The lower-casing that leaves every character outside ASCII as it is;
    the sample data below is ASCII text. *)
#[global] Instance ascii_case : Lowercase :=
  {| lower := ascii_lower; lower_isascii := fun _ _ => eq_refl |}.

(** [s.startswith(p)] *)
Definition startswith (s p : string) : bool := String.prefix p s.

(** [s.split(sep)] for a one-character separator: every occurrence cuts,
    and the empty string splits into one empty piece. *)
Fixpoint split (sep : ascii) (s : string) : list string :=
  match s with
  | EmptyString => [EmptyString]
  | String c s' =>
      if Ascii.eqb c sep then EmptyString :: split sep s'
      else match split sep s' with
           | piece :: rest => String c piece :: rest
           | [] => [String c EmptyString]
           end
  end.

(** [s.replace(old, new)] for a non-empty [old]: occurrences are taken
    from the left and do not overlap; [skip] counts the characters of a
    matched occurrence still to be dropped. *)
Fixpoint replace_from (old new : string) (skip : nat) (s : string) : string :=
  match s with
  | EmptyString => EmptyString
  | String c s' =>
      match skip with
      | S n => replace_from old new n s'
      | O =>
          if String.prefix old s
          then new +:+ replace_from old new (String.length old - 1) s'
          else String c (replace_from old new 0 s')
      end
  end.

Definition replace (s old new : string) : string := replace_from old new 0 s.

(** [sep.join(parts)] *)
Fixpoint join (sep : string) (parts : list string) : string :=
  match parts with
  | [] => EmptyString
  | [p] => p
  | p :: rest => p +:+ sep +:+ join sep rest
  end.

(** Truthiness of a string: [if s:] holds for a non-empty string. *)
Definition truthy (s : string) : bool :=
  match s with EmptyString => false | String _ _ => true end.

(** [sub in s]: [sub] occurs in [s] as a substring. *)
Fixpoint contains (sub s : string) : bool :=
  match s with
  | EmptyString => String.prefix sub EmptyString
  | String _ s' => String.prefix sub s || contains sub s'
  end.

End PyStr.

(** ** [src/core/hybrid_rag_pipeline.py] *)
Module Pipeline.

(** A langchain [Document]: its text and its metadata dictionary. *)
Record Document : Type := {
  page_content : string;
  doc_metadata : gmap string string
}.

(** A Chroma vector store as the pipeline uses it: the one method
    [similarity_search_with_score(question, k)], which returns the
    documents with their scores or raises. *)
Definition VectorStore : Type :=
  string -> nat -> result (list (Document * float)).

(** The fields of [self] that [ask_question] reads. A store that was not
    found at start-up is [None]. *)
Record HybridRAGPipeline : Type := {
  llm : string -> result string;
  qa_vector_store : option VectorStore;
  doc_vector_store : option VectorStore
}.

(** The calls the router makes to its two collaborators, in order. *)
Inductive event : Type :=
| QASearch (question : string) (k : nat)
| DocSearch (question : string) (k : nat)
| Generate (prompt : string).

(** A computation that logs collaborator calls and may raise. *)
Definition M (A : Type) : Type := (list event * result A)%type.

Definition ret {A} (a : A) : M A := ([], Ok a).

Definition bind {A B} (m : M A) (f : A -> M B) : M B :=
  match m with
  | (t, Ok a) => let '(t', r) := f a in (t ++ t', r)
  | (t, Raise e) => (t, Raise e)
  end.

(** [try: m except Exception as e: handler e] *)
Definition try_except {A} (m : M A) (handler : exn -> M A) : M A :=
  match m with
  | (t, Raise e) => let '(t', r) := handler e in (t ++ t', r)
  | (t, Ok a) => (t, Ok a)
  end.

Definition call (ev : event) {A} (r : result A) : M A := ([ev], r).

#[global] Instance M_ret : MRet M := @ret.
#[global] Instance M_bind : MBind M := fun A B f m => bind m f.

(** The dictionaries [search_qa_data] returns. *)
Record QAResult : Type := {
  qa_question : string;
  qa_answer : string;
  qa_context : string;
  qa_category : string;
  qa_source : string;
  qa_similarity_score : float;
  qa_content : string
}.

(** The dictionaries [search_documents] returns. *)
Record DocResult : Type := {
  doc_title : string;
  doc_url : string;
  doc_content : string;
  doc_similarity_score : float;
  doc_result_metadata : gmap string string
}.

(** The loop over [content.split('\n')]: a later labelled line overwrites
    an earlier one. The state is (context, question, answer). *)
Definition parse_line (acc : string * string * string) (line : string)
  : string * string * string :=
  let '(qa_context, qa_question, qa_answer) := acc in
  if PyStr.startswith line "Context:"
  then (PyStr.strip (PyStr.replace line "Context:" EmptyString), qa_question, qa_answer)
  else if PyStr.startswith line "Question:"
  then (qa_context, PyStr.strip (PyStr.replace line "Question:" EmptyString), qa_answer)
  else if PyStr.startswith line "Answer:"
  then (qa_context, qa_question, PyStr.strip (PyStr.replace line "Answer:" EmptyString))
  else acc.

Definition parse_qa (doc_score : Document * float) : QAResult :=
  let '(doc, score) := doc_score in
  let content := page_content doc in
  let metadata := doc_metadata doc in
  let lines := PyStr.split "010"%char content in
  let '(qa_context, qa_question, qa_answer) :=
    foldl parse_line (EmptyString, EmptyString, EmptyString) lines in
  {| qa_question := qa_question;
     qa_answer := qa_answer;
     qa_context := qa_context;
     qa_category := default "Unknown" (metadata !! "category");
     qa_source := default "Unknown" (metadata !! "source");
     qa_similarity_score := score;
     qa_content := content |}.

Definition search_qa_data (self : HybridRAGPipeline) (question : string) (k : nat)
  : M (list QAResult) :=
  match qa_vector_store self with
  | None => ret []
  | Some store =>
      try_except
        (docs ← call (QASearch question k) (store question k);
         ret (map parse_qa docs))
        (fun _ => ret [])
  end.

Definition parse_doc (doc_score : Document * float) : DocResult :=
  let '(doc, score) := doc_score in
  {| doc_title := default "Unknown" (doc_metadata doc !! "title");
     doc_url := default EmptyString (doc_metadata doc !! "url");
     doc_content := page_content doc;
     doc_similarity_score := score;
     doc_result_metadata := doc_metadata doc |}.

Definition search_documents (self : HybridRAGPipeline) (question : string) (k : nat)
  : M (list DocResult) :=
  match doc_vector_store self with
  | None => ret []
  | Some store =>
      try_except
        (docs ← call (DocSearch question k) (store question k);
         ret (map parse_doc docs))
        (fun _ => ret [])
  end.

Definition base_prompt (question : string) : string :=
  "<s>[INST] You are a helpful financial advisor assistant. Answer the following question based on your general knowledge of financial planning and investing principles. If you're not confident about the answer, say so."
  +:+ nl +:+ nl +:+ "Question: " +:+ question +:+ nl +:+ nl
  +:+ "Provide a helpful, accurate response based on general financial knowledge. [/INST]".

Definition get_base_llm_answer (self : HybridRAGPipeline) (question : string)
  : M string :=
  let prompt := base_prompt question in
  call (Generate prompt) (llm self prompt).

Inductive Confidence : Type := high | medium | low.

(** The three values of [result['method']]. *)
Inductive Method : Type := qa_data | document_search | base_llm.

(** The entries of [result['sources_used']], tagged by their ['type']. *)
Inductive SourceRef : Type :=
| qa_pair (question context category source : string) (similarity_score : float)
| document_chunk (title url : string) (similarity_score : float).

Record Envelope : Type := {
  question : string;
  timestamp : string;
  sources_used : list SourceRef;
  answer : string;
  confidence : Confidence;
  method : Method
}.

(** The constant of the tier-1 test [similarity_score > 0.7]. *)
Definition T_curated : float := 0x1.6666666666666p-1%float.

Definition context_part (doc : DocResult) : string :=
  "Source: " +:+ doc_title doc +:+ nl +:+ doc_content doc.

Definition doc_source (doc : DocResult) : SourceRef :=
  document_chunk (doc_title doc) (doc_url doc) (doc_similarity_score doc).

Definition grounded_prompt (context question : string) : string :=
  "<s>[INST] You are a helpful financial advisor assistant. Use the following context to answer the user's question. If the context doesn't contain enough information, say so."
  +:+ nl +:+ nl +:+ "Context:" +:+ nl +:+ context +:+ nl +:+ nl
  +:+ "Question: " +:+ question +:+ nl +:+ nl
  +:+ "Provide a clear, accurate answer based on the context provided. [/INST]".

(** Tier 1 of [ask_question]: [Some] envelope when the tier returns. *)
Definition tier1 (self : HybridRAGPipeline) (question : string)
    (use_hybrid : bool) (result0 : Envelope) : M (option Envelope) :=
  if bool_decide (is_Some (qa_vector_store self)) && use_hybrid then
    qa_results ← search_qa_data self question 2;
    match qa_results with
    | best_qa :: _ =>
        if PrimFloat.ltb T_curated (qa_similarity_score best_qa) then
          ret (Some {| question := question;
                       timestamp := timestamp result0;
                       sources_used :=
                         [qa_pair (qa_question best_qa) (qa_context best_qa)
                                  (qa_category best_qa) (qa_source best_qa)
                                  (qa_similarity_score best_qa)];
                       answer := qa_answer best_qa;
                       confidence := high;
                       method := qa_data |})
        else ret None
    | [] => ret None
    end
  else ret None.

(** Tier 2 of [ask_question]. *)
Definition tier2 (self : HybridRAGPipeline) (question : string)
    (use_hybrid : bool) (result0 : Envelope) : M (option Envelope) :=
  if bool_decide (is_Some (doc_vector_store self)) && use_hybrid then
    doc_results ← search_documents self question 3;
    match doc_results with
    | _ :: _ =>
        let context_parts := map context_part doc_results in
        let sources := map doc_source doc_results in
        let context := PyStr.join (nl +:+ nl) context_parts in
        let prompt := grounded_prompt context question in
        generated ← call (Generate prompt) (llm self prompt);
        ret (Some {| question := question;
                     timestamp := timestamp result0;
                     sources_used := sources;
                     answer := generated;
                     confidence := medium;
                     method := document_search |})
    | [] => ret None
    end
  else ret None.

(** Tier 3 of [ask_question]. *)
Definition tier3 (self : HybridRAGPipeline) (question : string)
    (result0 : Envelope) : M Envelope :=
  generated ← get_base_llm_answer self question;
  ret {| question := question;
         timestamp := timestamp result0;
         sources_used := [];
         answer := generated;
         confidence := low;
         method := base_llm |}.

(** [ask_question(question, use_hybrid)]; [now] is the value of
    [datetime.now().isoformat()] read on entry. *)
Definition ask_question (self : HybridRAGPipeline) (question : string)
    (use_hybrid : bool) (now : string) : M Envelope :=
  let result0 := {| question := question;
                    timestamp := now;
                    sources_used := [];
                    answer := EmptyString;
                    confidence := low;
                    method := base_llm |} in
  accepted1 ← tier1 self question use_hybrid result0;
  match accepted1 with
  | Some result => ret result
  | None =>
      accepted2 ← tier2 self question use_hybrid result0;
      match accepted2 with
      | Some result => ret result
      | None => tier3 self question result0
      end
  end.

(** *** Derived pipelines and envelopes used to state the properties *)

(** The store that answers with an empty list wherever [store] raises. *)
Definition as_empty (store : VectorStore) : VectorStore :=
  fun question k =>
    match store question k with
    | Raise _ => Ok []
    | Ok docs => Ok docs
    end.

(** The same pipeline with both stores replaced by their [as_empty]. *)
Definition degrade (self : HybridRAGPipeline) : HybridRAGPipeline :=
  {| llm := llm self;
     qa_vector_store := as_empty <$> qa_vector_store self;
     doc_vector_store := as_empty <$> doc_vector_store self |}.

(** The envelope tier 1 returns for the search result [best]. *)
Definition curated_envelope (question now : string) (best : QAResult) : Envelope :=
  {| question := question; timestamp := now;
     sources_used := [qa_pair (qa_question best) (qa_context best)
                              (qa_category best) (qa_source best)
                              (qa_similarity_score best)];
     answer := qa_answer best; confidence := high; method := qa_data |}.

(** The envelope tier 3 returns for the generated text. *)
Definition fallback_envelope (question now generated : string) : Envelope :=
  {| question := question; timestamp := now; sources_used := [];
     answer := generated; confidence := low; method := base_llm |}.

(** *** Sample collaborators *)

(** The document [create_qa_vector_db] of [pipelines/setup_hybrid_rag.py]
    indexes for a stored Q&A pair. *)
Definition qa_document (context question answer source category doc_id : string)
  : Document :=
  {| page_content :=
       "Context: " +:+ context +:+ nl +:+ nl
       +:+ "Question: " +:+ question +:+ nl +:+ nl
       +:+ "Answer: " +:+ answer;
     doc_metadata :=
       {[ "source" := source; "category" := category; "context" := context;
          "question" := question; "doc_id" := doc_id ]} |}.

Definition roth_doc : Document :=
  qa_document "Roth IRA basics" "What is a Roth IRA?"
    "A retirement account funded with after-tax money."
    "IRS" "roth_ira_basics" "manual".

(** A stored answer of two lines. *)
Definition two_line_doc : Document :=
  qa_document "Roth IRA basics" "What is a Roth IRA?"
    ("A retirement account." +:+ nl +:+ "Withdrawals in retirement are tax-free.")
    "IRS" "roth_ira_basics" "manual".

Definition wiki_doc : Document :=
  {| page_content := "Roth IRAs are individual retirement arrangements.";
     doc_metadata := {[ "title" := "Roth IRA"; "url" := "https://example.org/roth" ]} |}.

Definition fixed_llm (prompt : string) : result string := Ok "generated text".

(** Both stores present; the curated store answers every search with
    [roth_doc] at the given score, the document store with [wiki_doc]. *)
Definition sample_pipeline (score : float) : HybridRAGPipeline :=
  {| llm := fixed_llm;
     qa_vector_store := Some (fun _ _ => Ok [(roth_doc, score)]);
     doc_vector_store := Some (fun _ _ => Ok [(wiki_doc, 0x1p-1%float)]) |}.

(** Whether tier 1 takes the first of the search results. *)
Definition curated_accepts (results : list QAResult) : bool :=
  match results with
  | best :: _ => PrimFloat.ltb T_curated (qa_similarity_score best)
  | [] => false
  end.

(** The envelope tier 2 returns for the document results and the generated
    text. *)
Definition grounded_envelope (question now generated : string)
    (doc_results : list DocResult) : Envelope :=
  {| question := question; timestamp := now;
     sources_used := map doc_source doc_results;
     answer := generated; confidence := medium; method := document_search |}.

(** A field that [search_qa_data] reads back as it was stored: one line,
    no blanks around it, and no occurrence of its own label. *)
Definition plain_field (label s : string) : Prop :=
  PyStr.split "010"%char s = [s]
  /\ PyStr.strip s = s
  /\ PyStr.replace s label EmptyString = s.

(** The pipeline whose curated store is absent. *)
Definition without_curated (self : HybridRAGPipeline) : HybridRAGPipeline :=
  {| llm := llm self; qa_vector_store := None;
     doc_vector_store := doc_vector_store self |}.

(** Both stores present and empty. *)
Definition empty_pipeline : HybridRAGPipeline :=
  {| llm := fixed_llm;
     qa_vector_store := Some (fun _ _ => Ok []);
     doc_vector_store := Some (fun _ _ => Ok []) |}.

End Pipeline.

(** ** [src/utils/qa_content_manager.py] *)
Module ContentManager.

(** One Q&A entry is a Python dict from field names to strings. *)
Abbreviation QAPair := (gmap string string).

(** [d[k]] on an entry *)
Definition getitem (d : QAPair) (k : string) : result string :=
  match d !! k with
  | Some v => Ok v
  | None => Raise (KeyError k)
  end.

(** [q.lower().strip()], the key under which questions are compared *)
Definition normalize `{PyStr.Lowercase} (q : string) : string := PyStr.strip (PyStr.lower q).

(** *** Insertion-ordered dictionaries with string keys *)
Section Dict.
Context {V : Type}.

Fixpoint dict_get (d : list (string * V)) (k : string) : option V :=
  match d with
  | [] => None
  | (k', v) :: d' => if decide (k' = k) then Some v else dict_get d' k
  end.

(** [k in d] *)
Definition dict_mem (d : list (string * V)) (k : string) : bool :=
  match dict_get d k with Some _ => true | None => false end.

(** [d[k]] *)
Definition dict_getitem (d : list (string * V)) (k : string) : result V :=
  match dict_get d k with
  | Some v => Ok v
  | None => Raise (KeyError k)
  end.

(** [d[k] = v]: an existing key keeps its place, a new key goes last. *)
Fixpoint dict_set (d : list (string * V)) (k : string) (v : V)
  : list (string * V) :=
  match d with
  | [] => [(k, v)]
  | (k', v') :: d' =>
      if decide (k' = k) then (k, v) :: d' else (k', v') :: dict_set d' k v
  end.

Definition dict_keys (d : list (string * V)) : list string := map fst d.
End Dict.

(** [if x not in l: l.append(x)] *)
Definition append_if_absent (x : string) (l : list string) : list string :=
  if bool_decide (x ∈ l) then l else l ++ [x].

(** *** The knowledge base

    [metadata], [qa_pairs] and [categories] are the three keys of the
    knowledge-base dictionary. In memory ([E] is [ref]) the lists hold
    references to entry objects, and an object may be shared by
    [qa_pairs] and a bucket; in a file ([E] is [QAPair]) they hold the
    entries themselves. *)
Record Metadata : Type := {
  total_qa_pairs : Z;
  meta_categories : list string;
  category_counts : list (string * Z);
  meta_sources : list string
}.

Record Data (E : Type) : Type := {
  metadata : Metadata;
  qa_pairs : list E;
  categories : list (string * list E)
}.
Arguments metadata {E} _.
Arguments qa_pairs {E} _.
Arguments categories {E} _.

Definition ref : Type := nat.
Abbreviation QAData := (Data ref).
Abbreviation JsonData := (Data QAPair).

Definition map_data {E F} (f : E -> F) (d : Data E) : Data F :=
  {| metadata := metadata d;
     qa_pairs := map f (qa_pairs d);
     categories := map (fun b => (fst b, map f (snd b))) (categories d) |}.

(** The object a reference points to; every reference the manager holds
    was allocated before, the empty dict stands for any other. *)
Definition deref (h : list QAPair) (r : ref) : QAPair := default ∅ (h !! r).

(** What [json.dump] writes for the in-memory data. *)
Definition dump (h : list QAPair) (d : QAData) : JsonData := map_data (deref h) d.

(** What a file holds: a knowledge base, the JSON text [null]
    ([json.dump(None, f)]), or text that [json.load] rejects. *)
Inductive FileContent : Type :=
| KnowledgeBase (j : JsonData)
| JsonNull
| NotJson.

(** The manager ([qa_data_file], [backup_dir], [qa_data]), the entry
    objects it refers to ([heap]) and the files on disk ([fs]). *)
Record State : Type := {
  qa_data_file : string;
  backup_dir : string;
  qa_data : option QAData;
  heap : list QAPair;
  fs : gmap string FileContent
}.

Definition set_qa_data (d : option QAData) (s : State) : State :=
  {| qa_data_file := qa_data_file s; backup_dir := backup_dir s;
     qa_data := d; heap := heap s; fs := fs s |}.

Definition set_heap (h : list QAPair) (s : State) : State :=
  {| qa_data_file := qa_data_file s; backup_dir := backup_dir s;
     qa_data := qa_data s; heap := h; fs := fs s |}.

Definition set_fs (f : gmap string FileContent) (s : State) : State :=
  {| qa_data_file := qa_data_file s; backup_dir := backup_dir s;
     qa_data := qa_data s; heap := heap s; fs := f |}.

(** The in-memory knowledge base by value. *)
Definition snapshot (s : State) : option JsonData := dump (heap s) <$> qa_data s.

(** *** Methods as state transformers that may raise

    A raise keeps the mutations made before it, as in Python. *)
Definition Op (A : Type) : Type := State -> result A * State.

#[global] Instance Op_ret : MRet Op := fun A a s => (Ok a, s).
#[global] Instance Op_bind : MBind Op := fun A B f m s =>
  match m s with
  | (Ok a, s') => f a s'
  | (Raise e, s') => (Raise e, s')
  end.

Definition lift {A} (r : result A) : Op A := fun s => (r, s).
Definition get_state : Op State := fun s => (Ok s, s).
Definition modify (f : State -> State) : Op unit := fun s => (Ok tt, f s).

(** [self.qa_data[...]]: subscripting [None] is a [TypeError]. *)
Definition get_data : Op QAData := fun s =>
  match qa_data s with
  | Some d => (Ok d, s)
  | None => (Raise (TypeError "'NoneType' object is not subscriptable"), s)
  end.

Definition put_data (d : QAData) : Op unit := modify (set_qa_data (Some d)).

(** *** [json.load]: fresh objects for the entries read *)
Definition alloc (h : list QAPair) (vs : list QAPair) : list ref * list QAPair :=
  (seq (length h) (length vs), h ++ vs).

Fixpoint alloc_buckets (h : list QAPair) (bs : list (string * list QAPair))
  : list (string * list ref) * list QAPair :=
  match bs with
  | [] => ([], h)
  | (c, vs) :: bs' =>
      let '(rs, h1) := alloc h vs in
      let '(bs'', h2) := alloc_buckets h1 bs' in
      ((c, rs) :: bs'', h2)
  end.

Definition alloc_data (h : list QAPair) (j : JsonData) : QAData * list QAPair :=
  let '(rs, h1) := alloc h (qa_pairs j) in
  let '(bs, h2) := alloc_buckets h1 (categories j) in
  ({| metadata := metadata j; qa_pairs := rs; categories := bs |}, h2).

(** [load_qa_data()]: [None] is the [{}] returned for a missing file. *)
Definition load_qa_data : Op (option QAData) := fun s =>
  match fs s !! qa_data_file s with
  | None => (Ok None, s)
  | Some NotJson => (Raise JSONDecodeError, s)
  | Some JsonNull =>
      (Raise (TypeError "'NoneType' object is not subscriptable"),
       set_qa_data None s)
  | Some (KnowledgeBase j) =>
      let '(d, h') := alloc_data (heap s) j in
      (Ok (Some d), set_qa_data (Some d) (set_heap h' s))
  end.

(** [if not self.qa_data: self.load_qa_data()] *)
Definition ensure_loaded : Op unit := fun s =>
  match qa_data s with
  | Some _ => (Ok tt, s)
  | None => (_ ← load_qa_data; mret tt) s
  end.

(** *** [save_qa_data]

    The environment may fail one of the three file operations of a call:
    reading the current file, writing the backup, writing the data file.
    A write that fails leaves the file opened with mode ['w'] truncated
    or partly written, which is not JSON. *)
Inductive Fault : Type :=
| NoFault
| ReadFails
| BackupWriteFails
| PrimaryWriteFails.

Definition backup_path (dir timestamp : string) : string :=
  dir +:+ "/qa_backup_" +:+ timestamp +:+ ".json".

(** The [if os.path.exists(output_file):] block. *)
Definition backup_step (output_file backup_file : string) (fault : Fault)
  : Op unit := fun s =>
  match fs s !! output_file with
  | None => (Ok tt, s)
  | Some current =>
      match fault with
      | ReadFails => (Raise (OSError "read"), s)
      | _ =>
          match current with
          | NotJson => (Raise JSONDecodeError, s)
          | current_data =>
              match fault with
              | BackupWriteFails =>
                  (Raise (OSError "write"),
                   set_fs (<[backup_file := NotJson]> (fs s)) s)
              | _ => (Ok tt, set_fs (<[backup_file := current_data]> (fs s)) s)
              end
          end
      end
  end.

(** What [json.dump(self.qa_data, f)] writes. *)
Definition serialized (s : State) : FileContent :=
  match qa_data s with
  | Some d => KnowledgeBase (dump (heap s) d)
  | None => JsonNull
  end.

(** The [# Save new data] block. *)
Definition write_step (output_file : string) (fault : Fault) : Op unit := fun s =>
  match fault with
  | PrimaryWriteFails =>
      (Raise (OSError "write"), set_fs (<[output_file := NotJson]> (fs s)) s)
  | _ => (Ok tt, set_fs (<[output_file := serialized s]> (fs s)) s)
  end.

(** [save_qa_data(output_file)]; [timestamp] is
    [datetime.now().strftime("%Y%m%d_%H%M%S")]. *)
Definition save_qa_data (output_file : option string) (timestamp : string)
    (fault : Fault) : Op unit := fun s =>
  let output_file := default (qa_data_file s) output_file in
  let backup_file := backup_path (backup_dir s) timestamp in
  (_ ← backup_step output_file backup_file fault;
   write_step output_file fault) s.

(** *** [add_qa_pair] *)

(** [categories[cat].append(r)], after [if cat not in categories:
    categories[cat] = []] *)
Definition bucket_append (cats : list (string * list ref)) (cat : string)
    (r : ref) : list (string * list ref) :=
  let cats1 := if dict_mem cats cat then cats else dict_set cats cat [] in
  dict_set cats1 cat (default [] (dict_get cats1 cat) ++ [r]).

Definition set_total (n : Z) (m : Metadata) : Metadata :=
  {| total_qa_pairs := n; meta_categories := meta_categories m;
     category_counts := category_counts m; meta_sources := meta_sources m |}.

Definition set_meta_categories (l : list string) (m : Metadata) : Metadata :=
  {| total_qa_pairs := total_qa_pairs m; meta_categories := l;
     category_counts := category_counts m; meta_sources := meta_sources m |}.

Definition set_meta_sources (l : list string) (m : Metadata) : Metadata :=
  {| total_qa_pairs := total_qa_pairs m; meta_categories := meta_categories m;
     category_counts := category_counts m; meta_sources := l |}.

Definition new_qa_pair (question answer context category source confidence
    now : string) : QAPair :=
  {[ "question" := question; "answer" := answer; "context" := context;
     "source" := source; "doc_id" := "manual"; "category" := category;
     "confidence" := confidence; "added_date" := now ]}.

(** [add_qa_pair(question, answer, context, category, source,
    confidence)]; [now] is [datetime.now().isoformat()]. The result is
    the reference of the new entry object, which [qa_pairs] and the
    category bucket share. *)
Definition add_qa_pair (question answer context category source confidence
    now : string) : Op ref :=
  _ ← ensure_loaded;
  let qa_pair := new_qa_pair question answer context category source confidence now in
  d ← get_data;
  s ← get_state;
  let r := length (heap s) in
  _ ← modify (set_heap (heap s ++ [qa_pair]));
  let m := metadata d in
  let m1 := set_total (total_qa_pairs m + 1) m in
  let cats := bucket_append (categories d) category r in
  let m2 := set_meta_categories (append_if_absent category (meta_categories m1)) m1 in
  let m3 := set_meta_sources (append_if_absent source (meta_sources m2)) m2 in
  _ ← put_data {| metadata := m3; qa_pairs := qa_pairs d ++ [r]; categories := cats |};
  mret r.

(** *** Looking an entry up by its normalized question

    The loop [for i, qa_pair in enumerate(qa_pairs)] up to its first
    match; reading ['question'] of an entry without one raises. *)
Fixpoint find_question `{PyStr.Lowercase} (h : list QAPair) (refs : list ref) (key : string)
    (i : nat) : result (option (nat * ref)) :=
  match refs with
  | [] => Ok None
  | r :: refs' =>
      match getitem (deref h r) "question" with
      | Raise e => Raise e
      | Ok q =>
          if decide (normalize q = key) then Ok (Some (i, r))
          else find_question h refs' key (S i)
      end
  end.

(** [[qa for qa in bucket if qa['question'] != question]] *)
Fixpoint filter_other_questions (h : list QAPair) (bucket : list ref)
    (question : string) : result (list ref) :=
  match bucket with
  | [] => Ok []
  | r :: bucket' =>
      match getitem (deref h r) "question" with
      | Raise e => Raise e
      | Ok q =>
          match filter_other_questions h bucket' question with
          | Raise e => Raise e
          | Ok kept => Ok (if decide (q = question) then kept else r :: kept)
          end
      end
  end.

Definition set_categories (cats : list (string * list ref)) (d : QAData) : QAData :=
  {| metadata := metadata d; qa_pairs := qa_pairs d; categories := cats |}.

(** [categories[cat] = [qa for qa in categories[cat] if qa['question']
    != qa_pair['question']]] *)
Definition remove_from_bucket (cat : string) (r : ref) : Op unit :=
  d ← get_data;
  s ← get_state;
  bucket ← lift (dict_getitem (categories d) cat);
  question ← lift (getitem (deref (heap s) r) "question");
  kept ← lift (filter_other_questions (heap s) bucket question);
  put_data (set_categories (dict_set (categories d) cat kept) d).

(** *** [update_qa_pair] *)

(** [if new_x:] for an optional string argument *)
Definition given (o : option string) : bool :=
  match o with
  | Some v => PyStr.truthy v
  | None => false
  end.

(** [if new_x: qa_pair[field] = new_x] *)
Definition set_if_given (field : string) (o : option string) (e : QAPair) : QAPair :=
  match o with
  | Some v => if PyStr.truthy v then <[field := v]> e else e
  | None => e
  end.

(** [update_qa_pair(question, new_answer, new_context, new_category,
    new_confidence)]: the entry object is changed in place, so every
    list that shares it sees the change. [None] is returned when no
    question matches. *)
Definition update_qa_pair `{PyStr.Lowercase} (question : string)
    (new_answer new_context new_category new_confidence : option string)
    (now : string) : Op (option ref) :=
  _ ← ensure_loaded;
  d ← get_data;
  s ← get_state;
  found ← lift (find_question (heap s) (qa_pairs d) (normalize question) 0);
  match found with
  | None => mret None
  | Some (_, r) =>
      let qa_pair := deref (heap s) r in
      old_answer ← lift (getitem qa_pair "answer");
      old_category ← lift (getitem qa_pair "category");
      let qa_pair' :=
        <["updated_date" := now]>
          (set_if_given "confidence" new_confidence
             (set_if_given "category" new_category
                (set_if_given "context" new_context
                   (set_if_given "answer" new_answer qa_pair)))) in
      _ ← modify (set_heap (<[r := qa_pair']> (heap s)));
      _ ← (match new_category with
           | Some c =>
               if PyStr.truthy c && negb (bool_decide (c = old_category)) then
                 _ ← remove_from_bucket old_category r;
                 d1 ← get_data;
                 put_data (set_categories (bucket_append (categories d1) c r) d1)
               else mret tt
           | None => mret tt
           end);
      mret (Some r)
  end.

(** *** [delete_qa_pair] *)
Definition delete_qa_pair `{PyStr.Lowercase} (question : string) : Op bool :=
  _ ← ensure_loaded;
  d ← get_data;
  s ← get_state;
  found ← lift (find_question (heap s) (qa_pairs d) (normalize question) 0);
  match found with
  | None => mret false
  | Some (i, r) =>
      category ← lift (getitem (deref (heap s) r) "category");
      _ ← put_data {| metadata := set_total (total_qa_pairs (metadata d) - 1) (metadata d);
                      qa_pairs := delete i (qa_pairs d);
                      categories := categories d |};
      _ ← remove_from_bucket category r;
      mret true
  end.

(** *** [validate_qa_pairs] *)

(** The [issues] dictionary; entries are named by reference. *)
Record Issues : Type := {
  missing_fields : list (ref * string);
  duplicate_questions : list ref;
  empty_answers : list ref;
  low_confidence : list ref;
  orphaned_categories : list string
}.

Definition required_fields : list string :=
  ["question"; "answer"; "context"; "category"; "source"].

(** [field not in qa_pair or not qa_pair[field]] *)
Definition field_missing (e : QAPair) (field : string) : bool :=
  match e !! field with
  | None => true
  | Some v => negb (PyStr.truthy v)
  end.

(** One round of the loop over [qa_pairs]; [seen] is [seen_questions]. *)
Definition validate_entry `{PyStr.Lowercase} (h : list QAPair) (acc : Issues * list string) (r : ref)
  : result (Issues * list string) :=
  let '(issues, seen) := acc in
  let e := deref h r in
  let missing :=
    missing_fields issues
    ++ map (fun field => (r, field)) (filter (fun field => field_missing e field) required_fields) in
  match getitem e "question" with
  | Raise ex => Raise ex
  | Ok q =>
      let question_key := normalize q in
      let is_dup := bool_decide (question_key ∈ seen) in
      let dups := if is_dup then duplicate_questions issues ++ [r]
                  else duplicate_questions issues in
      let seen' := if is_dup then seen else seen ++ [question_key] in
      let empties :=
        if PyStr.truthy (PyStr.strip (default EmptyString (e !! "answer")))
        then empty_answers issues else empty_answers issues ++ [r] in
      let lows :=
        if bool_decide (e !! "confidence" = Some "low")
        then low_confidence issues ++ [r] else low_confidence issues in
      Ok ({| missing_fields := missing; duplicate_questions := dups;
             empty_answers := empties; low_confidence := lows;
             orphaned_categories := orphaned_categories issues |}, seen')
  end.

Fixpoint validate_entries `{PyStr.Lowercase} (h : list QAPair) (acc : Issues * list string)
    (refs : list ref) : result (Issues * list string) :=
  match refs with
  | [] => Ok acc
  | r :: refs' =>
      match validate_entry h acc r with
      | Raise ex => Raise ex
      | Ok acc' => validate_entries h acc' refs'
      end
  end.

(** The categories whose bucket is an empty list. *)
Definition orphaned (cats : list (string * list ref)) : list string :=
  map fst (filter (fun b => bool_decide (snd b = [])) cats).

Definition no_issues : Issues :=
  {| missing_fields := []; duplicate_questions := []; empty_answers := [];
     low_confidence := []; orphaned_categories := [] |}.

Definition validate_qa_pairs `{PyStr.Lowercase} : Op Issues :=
  _ ← ensure_loaded;
  d ← get_data;
  s ← get_state;
  acc ← lift (validate_entries (heap s) (no_issues, []) (qa_pairs d));
  let issues := fst acc in
  mret {| missing_fields := missing_fields issues;
          duplicate_questions := duplicate_questions issues;
          empty_answers := empty_answers issues;
          low_confidence := low_confidence issues;
          orphaned_categories := orphaned (categories d) |}.

(** *** [import_category] *)

(** One round of the loop over the imported entries. *)
Definition import_one (category : option string) (r : ref) : Op unit :=
  _ ← (if given category
       then modify (fun s => set_heap (<[r := set_if_given "category" category (deref (heap s) r)]> (heap s)) s)
       else mret tt);
  d ← get_data;
  _ ← put_data {| metadata := set_total (total_qa_pairs (metadata d) + 1) (metadata d);
                  qa_pairs := qa_pairs d ++ [r];
                  categories := categories d |};
  s ← get_state;
  cat ← lift (getitem (deref (heap s) r) "category");
  d1 ← get_data;
  let m1 := set_meta_categories (append_if_absent cat (meta_categories (metadata d1))) (metadata d1) in
  _ ← put_data {| metadata := m1; qa_pairs := qa_pairs d1;
                  categories := bucket_append (categories d1) cat r |};
  source ← lift (getitem (deref (heap s) r) "source");
  d2 ← get_data;
  put_data {| metadata := set_meta_sources (append_if_absent source (meta_sources (metadata d2))) (metadata d2);
              qa_pairs := qa_pairs d2; categories := categories d2 |}.

Fixpoint import_all (category : option string) (refs : list ref) : Op unit :=
  match refs with
  | [] => mret tt
  | r :: refs' => _ ← import_one category r; import_all category refs'
  end.

(** [import_category(import_file, category)]: the entries under the
    ['qa_pairs'] key of the imported file are read as fresh objects. *)
Definition import_category (import_file : string) (category : option string)
  : Op unit := fun s =>
  match fs s !! import_file with
  | None => (Ok tt, s)
  | Some NotJson => (Raise JSONDecodeError, s)
  | Some JsonNull =>
      (_ ← ensure_loaded;
       lift (Raise (AttributeError "'NoneType' object has no attribute 'get'"))) s
  | Some (KnowledgeBase import_data) =>
      let '(refs, h) := alloc (heap s) (qa_pairs import_data) in
      (_ ← ensure_loaded; import_all category refs) (set_heap h s)
  end.

(** *** [search_qa_pairs] *)

(** One round of the loop over [qa_pairs]: [Ok true] when the entry is
    appended to [results]. With a category filter the entry's
    ['category'] is read first; ['answer'] is read only when the question
    does not match. *)
Definition search_match `{PyStr.Lowercase} (query_lower : string) (category : option string)
    (e : QAPair) : result bool :=
  match (if given category
         then match getitem e "category" with
              | Raise ex => Raise ex
              | Ok c => Ok (negb (bool_decide (Some c = category)))
              end
         else Ok false) with
  | Raise ex => Raise ex
  | Ok true => Ok false
  | Ok false =>
      match getitem e "question" with
      | Raise ex => Raise ex
      | Ok q =>
          if PyStr.contains query_lower (PyStr.lower q) then Ok true
          else match getitem e "answer" with
               | Raise ex => Raise ex
               | Ok a => Ok (PyStr.contains query_lower (PyStr.lower a))
               end
      end
  end.

Fixpoint search_entries `{PyStr.Lowercase} (h : list QAPair) (query_lower : string)
    (category : option string) (refs : list ref) : result (list ref) :=
  match refs with
  | [] => Ok []
  | r :: refs' =>
      match search_match query_lower category (deref h r) with
      | Raise ex => Raise ex
      | Ok hit =>
          match search_entries h query_lower category refs' with
          | Raise ex => Raise ex
          | Ok results => Ok (if hit then r :: results else results)
          end
      end
  end.

(** [search_qa_pairs(query, category)] *)
Definition search_qa_pairs `{PyStr.Lowercase} (query : string) (category : option string)
  : Op (list ref) :=
  _ ← ensure_loaded;
  d ← get_data;
  s ← get_state;
  lift (search_entries (heap s) (PyStr.lower query) category (qa_pairs d)).

(** *** [generate_report] *)

Record Summary : Type := {
  summary_total_qa_pairs : Z;
  summary_categories : nat;
  summary_sources : nat;
  last_updated : string
}.

Record Report : Type := {
  summary : Summary;
  category_breakdown : list (string * nat);
  source_breakdown : list (string * nat);
  confidence_breakdown : list (string * nat);
  validation_issues : Issues
}.

(** [counts[k] = counts.get(k, 0) + 1] *)
Definition count_one (counts : list (string * nat)) (k : string)
  : list (string * nat) :=
  dict_set counts k (default 0 (dict_get counts k) + 1).

(** The loop [for qa_pair in qa_pairs: source = qa_pair['source']; ...] *)
Fixpoint count_sources (h : list QAPair) (counts : list (string * nat))
    (refs : list ref) : result (list (string * nat)) :=
  match refs with
  | [] => Ok counts
  | r :: refs' =>
      match getitem (deref h r) "source" with
      | Raise ex => Raise ex
      | Ok source => count_sources h (count_one counts source) refs'
      end
  end.

(** The loop with [qa_pair.get('confidence', 'unknown')], which cannot raise. *)
Definition count_confidences (h : list QAPair) (refs : list ref)
  : list (string * nat) :=
  foldl (fun counts r =>
           count_one counts (default "unknown" (deref h r !! "confidence")))
        [] refs.

(** [for category, qa_list in categories.items():
    breakdown[category] = len(qa_list)] *)
Definition count_categories (cats : list (string * list ref))
  : list (string * nat) :=
  foldl (fun counts b => dict_set counts (fst b) (length (snd b))) [] cats.

(** [generate_report()]; [now] is [datetime.now().isoformat()]. The
    summary and the validation issues are computed while the report
    dictionary is built, before the three breakdown loops. *)
Definition generate_report `{PyStr.Lowercase} (now : string) : Op Report :=
  _ ← ensure_loaded;
  d ← get_data;
  let summary0 :=
    {| summary_total_qa_pairs := total_qa_pairs (metadata d);
       summary_categories := length (meta_categories (metadata d));
       summary_sources := length (meta_sources (metadata d));
       last_updated := now |} in
  issues ← validate_qa_pairs;
  d1 ← get_data;
  s ← get_state;
  let by_category := count_categories (categories d1) in
  by_source ← lift (count_sources (heap s) [] (qa_pairs d1));
  let by_confidence := count_confidences (heap s) (qa_pairs d1) in
  mret {| summary := summary0;
          category_breakdown := by_category;
          source_breakdown := by_source;
          confidence_breakdown := by_confidence;
          validation_issues := issues |}.

(** *** The operator commands that change the store *)

(** [input(...).strip() or default] *)
Definition input_or (line default_value : string) : string :=
  if PyStr.truthy (PyStr.strip line) then PyStr.strip line else default_value.

(** [interactive_add()]: the six arguments are the lines typed at the six
    prompts, in order; the entry is added and the file saved only when
    question, answer, context and category are non-empty once stripped. *)
Definition interactive_add (in_question in_answer in_context in_category
    in_source in_confidence now timestamp : string) (fault : Fault) : Op unit :=
  let question := PyStr.strip in_question in
  let answer := PyStr.strip in_answer in
  let context := PyStr.strip in_context in
  let category := PyStr.strip in_category in
  let source := input_or in_source "Manual" in
  let confidence := input_or in_confidence "high" in
  if PyStr.truthy question && PyStr.truthy answer
     && PyStr.truthy context && PyStr.truthy category
  then
    _ ← add_qa_pair question answer context category source confidence now;
    save_qa_data None timestamp fault
  else mret tt.

(** [QAContentManager(qa_data_file)]: nothing is loaded yet, and the
    backups go to ["qa_backups"]. *)
Definition new_manager (qa_data_file : string) (files : gmap string FileContent)
  : State :=
  {| qa_data_file := qa_data_file; backup_dir := "qa_backups";
     qa_data := None; heap := []; fs := files |}.


(** *** Sample stores *)

Definition roth_entry : QAPair :=
  {[ "question" := "What is a Roth IRA?";
     "answer" := "A retirement account funded with after-tax money.";
     "context" := "Roth IRA basics"; "source" := "Manual"; "doc_id" := "manual";
     "category" := "a"; "confidence" := "high" ]}.

(** The same question in another case and with spaces around it. *)
Definition shouted_entry : QAPair :=
  {[ "question" := "  WHAT IS A ROTH IRA?  ";
     "answer" := "Something else."; "context" := "Roth IRA basics";
     "source" := "Import"; "doc_id" := "import"; "category" := "a";
     "confidence" := "medium" ]}.

(** An entry without a ['question'] key. *)
Definition incomplete_entry : QAPair :=
  {[ "answer" := "A retirement account funded with after-tax money.";
     "context" := "Roth IRA basics"; "source" := "Manual"; "category" := "a" ]}.

Definition roth_metadata : Metadata :=
  {| total_qa_pairs := 1; meta_categories := ["a"];
     category_counts := [("a", 1%Z)]; meta_sources := ["Manual"] |}.

Definition roth_json : JsonData :=
  {| metadata := roth_metadata; qa_pairs := [roth_entry];
     categories := [("a", [roth_entry])] |}.

(** A file whose two ['qa_pairs'] both repeat the question of
    [roth_entry] up to case and surrounding spaces. *)
Definition batch_json : JsonData :=
  {| metadata := roth_metadata; qa_pairs := [shouted_entry; roth_entry];
     categories := [] |}.

(** A knowledge base whose ['categories'] view lost its only entry. *)
Definition stale_json : JsonData :=
  {| metadata := roth_metadata; qa_pairs := [roth_entry]; categories := [] |}.

(** A manager holding one entry, shared by [qa_pairs] and bucket ["a"],
    with the same knowledge base on disk. *)
Definition roth_store : State :=
  {| qa_data_file := "kb.json"; backup_dir := "qa_backups";
     qa_data := Some {| metadata := roth_metadata; qa_pairs := [0];
                        categories := [("a", [0])] |};
     heap := [roth_entry];
     fs := {[ "kb.json" := KnowledgeBase roth_json;
              "batch.json" := KnowledgeBase batch_json ]} |}.

(** A manager whose only entry has no ['question']. *)
Definition incomplete_store : State :=
  {| qa_data_file := "kb.json"; backup_dir := "qa_backups";
     qa_data := Some {| metadata := roth_metadata; qa_pairs := [0];
                        categories := [("a", [0])] |};
     heap := [incomplete_entry];
     fs := ∅ |}.

(** A manager that has not loaded yet, over a stale file. *)
Definition stale_disk : State :=
  {| qa_data_file := "kb.json"; backup_dir := "qa_backups";
     qa_data := None; heap := [];
     fs := {[ "kb.json" := KnowledgeBase stale_json ]} |}.

(** *** Notions used to state the store's properties *)

Definition total_matches (s : State) : Prop :=
  exists d, qa_data s = Some d
    /\ total_qa_pairs (metadata d) = Z.of_nat (length (qa_pairs d)).

(** The object [update_qa_pair] leaves in place of [e]. *)
Definition updated_entry (new_answer new_context new_category new_confidence
    : option string) (now : string) (e : QAPair) : QAPair :=
  <["updated_date" := now]>
    (set_if_given "confidence" new_confidence
       (set_if_given "category" new_category
          (set_if_given "context" new_context
             (set_if_given "answer" new_answer e)))).

(** The entries [search_qa_pairs(query, category)] selects. *)
Definition search_hit `{PyStr.Lowercase} (query : string) (category : option string) (e : QAPair)
  : bool :=
  (negb (given category) || bool_decide (e !! "category" = category))
  && (PyStr.contains (PyStr.lower query)
        (PyStr.lower (default EmptyString (e !! "question")))
      || PyStr.contains (PyStr.lower query)
           (PyStr.lower (default EmptyString (e !! "answer")))).

(** An entry on which the loop of [search_qa_pairs] raises no [KeyError]. *)
Definition searchable (e : QAPair) : Prop :=
  is_Some (e !! "question") /\ is_Some (e !! "answer") /\ is_Some (e !! "category").

(** The number of entries a breakdown of [generate_report] counts. *)
Definition dict_total (counts : list (string * nat)) : nat :=
  sum_list (map snd counts).

(** [qa_pair['question'].lower().strip()] of the entry behind [r]. *)
Definition question_key `{PyStr.Lowercase} (h : list QAPair) (r : ref) : string :=
  normalize (default EmptyString (deref h r !! "question")).

(** [qa_pair.get('confidence') == 'low'] *)
Definition is_low (h : list QAPair) (r : ref) : bool :=
  bool_decide (deref h r !! "confidence" = Some "low").

(** [not qa_pair.get('answer', '').strip()] *)
Definition answer_blank (h : list QAPair) (r : ref) : bool :=
  negb (PyStr.truthy (PyStr.strip (default EmptyString (deref h r !! "answer")))).

(** The [missing_fields] records of one entry, in the order of
    [required_fields]. *)
Definition missing_of (h : list QAPair) (r : ref) : list (ref * string) :=
  map (fun field => (r, field))
    (filter (fun field => field_missing (deref h r) field) required_fields).

(** A manager that has not loaded yet and whose data file does not exist. *)
Definition no_file_store : State :=
  {| qa_data_file := "kb.json"; backup_dir := "qa_backups";
     qa_data := None; heap := []; fs := ∅ |}.

(** The loaded knowledge base of [roth_store]. *)
Definition roth_data : QAData :=
  {| metadata := roth_metadata; qa_pairs := [0]; categories := [("a", [0])] |}.

(** A manager holding the same question twice, up to case and spaces. *)
Definition repeated_store : State :=
  {| qa_data_file := "kb.json"; backup_dir := "qa_backups";
     qa_data := Some {| metadata := set_total 2 roth_metadata; qa_pairs := [0; 1];
                        categories := [("a", [0; 1])] |};
     heap := [roth_entry; shouted_entry];
     fs := ∅ |}.

(** An entry of low confidence whose context is empty and whose answer
    is a space followed by a no-break space (U+00A0). *)
Definition hasty_entry : QAPair :=
  {[ "question" := "What is a 401k?";
     "answer" := String " " (String "194" (String "160" EmptyString));
     "context" := EmptyString; "source" := "Manual"; "doc_id" := "manual";
     "category" := "b"; "confidence" := "low" ]}.

(** A manager holding a sound entry and a hasty one. *)
Definition hasty_store : State :=
  {| qa_data_file := "kb.json"; backup_dir := "qa_backups";
     qa_data := Some {| metadata := set_total 2 roth_metadata; qa_pairs := [0; 1];
                        categories := [("a", [0]); ("b", [1])] |};
     heap := [roth_entry; hasty_entry];
     fs := ∅ |}.

(** The manager of the files of [roth_store] right after loading:
    [json.load] gives the bucket its own copy of the entry. *)
Definition roth_loaded : State :=
  {| qa_data_file := "kb.json"; backup_dir := "qa_backups";
     qa_data := Some {| metadata := roth_metadata; qa_pairs := [0];
                        categories := [("a", [1])] |};
     heap := [roth_entry; roth_entry];
     fs := fs roth_store |}.

End ContentManager.

(** A closed conjunction of equations, each settled by evaluating both
    sides. *)
Ltac by_evaluation :=
  repeat match goal with |- _ /\ _ => split end; vm_compute; reflexivity.

(** * Properties of the router *)
Module PipelineFacts.
Import Pipeline.

Lemma parse_qa_score d : qa_similarity_score (parse_qa d) = snd d.
Proof.
  destruct d as [doc score]. unfold parse_qa.
  destruct (foldl _ _ _) as [[c q] a]. reflexivity.
Qed.

#[local] Opaque base_prompt grounded_prompt parse_qa parse_doc PyStr.join
  context_part doc_source T_curated.

Ltac unfold_router :=
  unfold ask_question, tier1, tier2, tier3, search_qa_data, search_documents,
    get_base_llm_answer, try_except, call, mbind, M_bind, bind, ret; simpl.

(** A search that raises is answered like an empty result list. *)
Lemma search_qa_data_raise self store question k e :
  qa_vector_store self = Some store -> store question k = Raise e ->
  search_qa_data self question k = ([QASearch question k], Ok []).
Proof. intros Hs He. unfold_router. rewrite Hs. simpl. rewrite He. reflexivity. Qed.

Lemma search_documents_raise self store question k e :
  doc_vector_store self = Some store -> store question k = Raise e ->
  search_documents self question k = ([DocSearch question k], Ok []).
Proof. intros Hs He. unfold_router. rewrite Hs. simpl. rewrite He. reflexivity. Qed.

Lemma search_qa_data_degrade self question k :
  search_qa_data (degrade self) question k = search_qa_data self question k.
Proof.
  unfold_router. destruct (qa_vector_store self) as [store|]; simpl; [|reflexivity].
  unfold as_empty. destruct (store question k); reflexivity.
Qed.

Lemma search_documents_degrade self question k :
  search_documents (degrade self) question k = search_documents self question k.
Proof.
  unfold_router. destruct (doc_vector_store self) as [store|]; simpl; [|reflexivity].
  unfold as_empty. destruct (store question k); reflexivity.
Qed.

Lemma is_Some_fmap_bool {A B} (f : A -> B) (o : option A) :
  bool_decide (is_Some (f <$> o)) = bool_decide (is_Some o).
Proof. apply bool_decide_ext. rewrite fmap_is_Some. reflexivity. Qed.

(** [<] on binary64 values is asymmetric. *)
Lemma SFcompare_Lt_Gt f1 f2 :
  SpecFloat.SFcompare f1 f2 = Some Lt -> SpecFloat.SFcompare f2 f1 = Some Gt.
Proof.
  destruct f1 as [s1| s1| |s1 m1 e1], f2 as [s2| s2| |s2 m2 e2]; simpl;
    try discriminate; try (destruct s1; discriminate || reflexivity);
    try (destruct s2; discriminate || reflexivity);
    try (destruct s1, s2; discriminate || reflexivity).
  rewrite (Z.compare_antisym e1 e2).
  change (PosDef.Pos.compare_cont Eq m1 m2) with (Pos.compare m1 m2).
  change (PosDef.Pos.compare_cont Eq m2 m1) with (Pos.compare m2 m1).
  rewrite (Pos.compare_antisym m1 m2).
  destruct s1, s2; try discriminate; try reflexivity;
    destruct (e1 ?= e2)%Z; simpl; try discriminate; try reflexivity;
    destruct (m1 ?= m2)%positive; simpl; discriminate || reflexivity.
Qed.

Lemma ltb_asymmetric x y :
  PrimFloat.ltb x y = true -> PrimFloat.ltb y x = false.
Proof.
  rewrite !ltb_spec. unfold SpecFloat.SFltb.
  destruct (SpecFloat.SFcompare (Prim2SF x) (Prim2SF y)) as [[]|] eqn:E;
    try discriminate.
  intros _. by rewrite (SFcompare_Lt_Gt _ _ E).
Qed.

Ltac has_generate :=
  eexists; repeat (apply elem_of_cons; first [left; reflexivity | right]).

(** C1 fails on the code. The score of a curated result is a distance,
    lower for a closer match, and [ask_question] takes the first result
    when its score is strictly above 0.7. For every question asked in
    hybrid mode with a curated store whose search returns at least one
    result:
    - a first score strictly below the threshold is not accepted: the
      run goes on exactly as if there were no curated store, the model
      is called, and no envelope has method [qa_data];
    - a first score strictly above the threshold is accepted with
      confidence [high], and the search is the only collaborator call. *)
Theorem curated_threshold_is_inverted self store question now best rest :
  qa_vector_store self = Some store ->
  store question 2 = Ok (best :: rest) ->
  (PrimFloat.ltb (snd best) T_curated = true ->
   exists t r,
     ask_question self question true now = (QASearch question 2 :: t, r)
     /\ ask_question (without_curated self) question true now = (t, r)
     /\ (exists prompt, Generate prompt ∈ t)
     /\ forall env, r = Ok env -> method env <> qa_data)
  /\ (PrimFloat.ltb T_curated (snd best) = true ->
      ask_question self question true now
      = ([QASearch question 2],
         Ok (curated_envelope question now (parse_qa best)))).
Proof.
  intros Hs Hr. split.
  - intros Hlt%ltb_asymmetric.
    unfold_router. rewrite Hs. simpl. rewrite Hr. simpl.
    rewrite !parse_qa_score, Hlt. simpl.
    destruct (doc_vector_store self) as [docs|]; simpl.
    + destruct (docs question 3) as [[|d ds]|e]; simpl.
      * destruct (llm self (base_prompt question)); simpl;
          eexists _, _; (split; [reflexivity|]); (split; [reflexivity|]);
          (split; [has_generate|]); intros env [= <-]; done.
      * destruct (llm self _); simpl;
          eexists _, _; (split; [reflexivity|]); (split; [reflexivity|]);
          (split; [has_generate|]); intros env [= <-]; done.
      * destruct (llm self (base_prompt question)); simpl;
          eexists _, _; (split; [reflexivity|]); (split; [reflexivity|]);
          (split; [has_generate|]); intros env [= <-]; done.
    + destruct (llm self (base_prompt question)); simpl;
        eexists _, _; (split; [reflexivity|]); (split; [reflexivity|]);
        (split; [has_generate|]); intros env [= <-]; done.
  - intros Hlt. unfold_router. rewrite Hs. simpl. rewrite Hr. simpl.
    unfold curated_envelope. rewrite !parse_qa_score, Hlt. reflexivity.
Qed.

Lemma curated_threshold_is_inverted_witness :
  qa_vector_store (sample_pipeline 0x1.999999999999ap-4)
  = Some (fun _ _ => Ok [(roth_doc, 0x1.999999999999ap-4%float)])
  /\ PrimFloat.ltb 0x1.999999999999ap-4 T_curated = true
  /\ exists t r,
       ask_question (sample_pipeline 0x1.999999999999ap-4) "What is a Roth IRA?"
         true "2024-01-01T00:00:00" = (QASearch "What is a Roth IRA?" 2 :: t, r)
       /\ ask_question (without_curated (sample_pipeline 0x1.999999999999ap-4))
            "What is a Roth IRA?" true "2024-01-01T00:00:00" = (t, r)
       /\ (exists prompt, Generate prompt ∈ t)
       /\ forall env, r = Ok env -> method env <> qa_data.
Proof.
  split; [reflexivity|]. split; [reflexivity|].
  destruct (curated_threshold_is_inverted (sample_pipeline 0x1.999999999999ap-4)
              (fun _ _ => Ok [(roth_doc, 0x1.999999999999ap-4%float)])
              "What is a Roth IRA?" "2024-01-01T00:00:00"
              (roth_doc, 0x1.999999999999ap-4%float) [] eq_refl eq_refl)
    as [Hbelow _].
  apply Hbelow. reflexivity.
Defined.

(** The run on the failing input: a first result at distance 0.1 from the
    question is passed over, the documents are searched and the model is
    called with the grounded prompt. *)
Example close_match_is_passed_over :
  ask_question (sample_pipeline 0x1.999999999999ap-4) "What is a Roth IRA?"
    true "2024-01-01T00:00:00"
  = ([QASearch "What is a Roth IRA?" 2;
      DocSearch "What is a Roth IRA?" 3;
      Generate (grounded_prompt
                  (context_part (parse_doc (wiki_doc, 0x1p-1%float)))
                  "What is a Roth IRA?")],
     Ok {| question := "What is a Roth IRA?";
           timestamp := "2024-01-01T00:00:00";
           sources_used :=
             [document_chunk "Roth IRA" "https://example.org/roth" 0x1p-1];
           answer := "generated text";
           confidence := medium;
           method := document_search |}).
Proof. vm_compute. reflexivity. Qed.

(** A first result at distance 0.9 is returned as a high-confidence
    curated answer. *)
Example distant_match_is_accepted :
  PrimFloat.ltb T_curated 0x1.ccccccccccccdp-1 = true
  /\ ask_question (sample_pipeline 0x1.ccccccccccccdp-1) "What is a Roth IRA?"
       true "2024-01-01T00:00:00"
     = ([QASearch "What is a Roth IRA?" 2],
        Ok {| question := "What is a Roth IRA?";
              timestamp := "2024-01-01T00:00:00";
              sources_used :=
                [qa_pair "What is a Roth IRA?" "Roth IRA basics" "roth_ira_basics"
                         "IRS" 0x1.ccccccccccccdp-1];
              answer := "A retirement account funded with after-tax money.";
              confidence := high;
              method := qa_data |}).
Proof. by_evaluation. Qed.

(** The answer of an envelope is read back from the indexed text line by
    line: of a stored answer of two lines only the first is returned. *)
Example parsed_answer_is_one_line :
  qa_answer (parse_qa (two_line_doc, 0x1.ccccccccccccdp-1%float))
  = "A retirement account.".
Proof. vm_compute. reflexivity. Qed.

(** C3: a search that raises, at either tier, changes nothing compared
    with the same search returning an empty list: the calls made and the
    outcome of [ask_question] are those of the pipeline whose stores
    answer [[]] wherever they raised; and when [ask_question] raises, the
    exception is one the model raised. *)
Theorem retrieval_error_is_empty_result self question use_hybrid now :
  ask_question self question use_hybrid now
  = ask_question (degrade self) question use_hybrid now
  /\ (forall t e, ask_question self question use_hybrid now = (t, Raise e) ->
      exists prompt, llm self prompt = Raise e).
Proof.
  split.
  - unfold ask_question, tier1, tier2, tier3, get_base_llm_answer.
    rewrite !search_qa_data_degrade, !search_documents_degrade.
    simpl. rewrite !is_Some_fmap_bool. reflexivity.
  - intros t e. unfold_router.
    repeat (case_match; simpl in *; simplify_eq; eauto).
    all: try (intros; simplify_eq; eauto).
Qed.

(** C9: every envelope [ask_question] returns has no sources exactly
    when its method is [base_llm]. *)
Theorem sources_empty_iff_fallback self question use_hybrid now t env :
  ask_question self question use_hybrid now = (t, Ok env) ->
  (sources_used env = [] <-> method env = base_llm).
Proof.
  unfold_router.
  repeat (case_match; simpl in *; simplify_eq); intros; simplify_eq; simpl;
    split; intro; try done.
Qed.

Lemma sources_empty_iff_fallback_witness :
  ask_question (sample_pipeline 0x1.999999999999ap-4) "What is a Roth IRA?"
    false "2024-01-01T00:00:00"
  = ([Generate (base_prompt "What is a Roth IRA?")],
     Ok (fallback_envelope "What is a Roth IRA?" "2024-01-01T00:00:00"
           "generated text"))
  /\ (sources_used (fallback_envelope "What is a Roth IRA?" "2024-01-01T00:00:00"
                      "generated text") = []
      <-> method (fallback_envelope "What is a Roth IRA?" "2024-01-01T00:00:00"
                    "generated text") = base_llm).
Proof.
  split; [reflexivity|].
  apply (sources_empty_iff_fallback (sample_pipeline 0x1.999999999999ap-4)
           "What is a Roth IRA?" false "2024-01-01T00:00:00"
           [Generate (base_prompt "What is a Roth IRA?")]).
  reflexivity.
Defined.

(** C10: with [use_hybrid = False] the only collaborator call is one
    generation with the ungrounded prompt, and the envelope built from
    its text has method [base_llm], confidence [low] and no sources. *)
Theorem non_hybrid_is_base_llm self question now :
  ask_question self question false now
  = ([Generate (base_prompt question)],
     match llm self (base_prompt question) with
     | Ok generated => Ok (fallback_envelope question now generated)
     | Raise e => Raise e
     end).
Proof.
  unfold_router. rewrite !andb_false_r. simpl.
  destruct (llm self (base_prompt question)); reflexivity.
Qed.

End PipelineFacts.

(** * Properties of the curated store *)
Module StoreFacts.
Import ContentManager.

Ltac unfold_op :=
  unfold mbind, Op_bind, mret, Op_ret, get_data, get_state, put_data, modify,
    lift, ensure_loaded.

Section DictFacts.
Context {V : Type}.
Implicit Types (d : list (string * V)) (k : string) (v : V).

Lemma dict_get_set_eq d k v : dict_get (dict_set d k v) k = Some v.
Proof.
  induction d as [|[k' v'] d IH]; simpl.
  - rewrite decide_True; done.
  - destruct (decide (k' = k)) as [->|Hne]; simpl.
    + rewrite decide_True; done.
    + rewrite decide_False; done.
Qed.

Lemma dict_keys_set_present d k v v' :
  dict_get d k = Some v -> dict_keys (dict_set d k v') = dict_keys d.
Proof.
  unfold dict_keys. induction d as [|[k' w] d IH]; simpl; [done|].
  destruct (decide (k' = k)) as [->|Hne]; simpl; [done|].
  intros H. rewrite IH; done.
Qed.

Lemma dict_keys_set_absent d k v :
  dict_get d k = None -> dict_keys (dict_set d k v) = dict_keys d ++ [k].
Proof.
  unfold dict_keys. induction d as [|[k' w] d IH]; simpl; [done|].
  destruct (decide (k' = k)) as [->|Hne]; simpl; [done|].
  intros H. rewrite IH; done.
Qed.
End DictFacts.

Lemma bucket_append_get cats cat r :
  dict_get (bucket_append cats cat r) cat
  = Some (default [] (dict_get cats cat) ++ [r]).
Proof.
  unfold bucket_append, dict_mem.
  destruct (dict_get cats cat) as [b|] eqn:E.
  - rewrite dict_get_set_eq, E. done.
  - rewrite !dict_get_set_eq. done.
Qed.

Lemma bucket_append_keys cats cat r :
  dict_keys cats `prefix_of` dict_keys (bucket_append cats cat r).
Proof.
  unfold bucket_append, dict_mem.
  destruct (dict_get cats cat) as [b|] eqn:E.
  - erewrite dict_keys_set_present by eassumption. done.
  - erewrite dict_keys_set_present by apply dict_get_set_eq.
    rewrite dict_keys_set_absent by done. by apply prefix_app_r.
Qed.

(** ** References and buckets *)

Lemma deref_valid h r k v : deref h r !! k = Some v -> r < length h.
Proof.
  unfold deref. destruct (h !! r) as [e|] eqn:E; simpl.
  - intros _. by eapply lookup_lt_Some.
  - by rewrite lookup_empty.
Qed.

Lemma deref_insert_eq h r e : r < length h -> deref (<[r := e]> h) r = e.
Proof. intros Hr. unfold deref. by rewrite list_lookup_insert_eq. Qed.

Lemma deref_insert_ne h r r' e : r <> r' -> deref (<[r := e]> h) r' = deref h r'.
Proof. intros Hr. unfold deref. by rewrite list_lookup_insert_ne. Qed.

Lemma dict_get_set_ne {V} (cats : list (string * V)) k k' v :
  k <> k' -> dict_get (dict_set cats k v) k' = dict_get cats k'.
Proof.
  intros Hne. induction cats as [|[k0 v0] cats IH]; simpl.
  - by rewrite decide_False.
  - destruct (decide (k0 = k)) as [->|Hk]; simpl.
    + by rewrite !decide_False.
    + by rewrite IH.
Qed.

Lemma bucket_append_get_ne cats cat cat' r :
  cat <> cat' -> dict_get (bucket_append cats cat r) cat' = dict_get cats cat'.
Proof.
  intros Hne. unfold bucket_append.
  destruct (dict_mem cats cat); by rewrite !dict_get_set_ne.
Qed.

(** ** [add_qa_pair] *)

(** C2 as stated fails: adding the stored question again, in lower case
    and with spaces around it, succeeds; the store then holds two
    entries with the same normalized question. *)
Lemma add_accepts_duplicate_question :
  normalize " what is a roth ira? " = normalize "What is a Roth IRA?"
  /\ fst (add_qa_pair " what is a roth ira? " "Another answer." "Roth IRA basics"
            "a" "Manual" "high" "2024-01-01T00:00:00" roth_store) = Ok 1
  /\ (qa_data (snd (add_qa_pair " what is a roth ira? " "Another answer."
                      "Roth IRA basics" "a" "Manual" "high"
                      "2024-01-01T00:00:00" roth_store))
      = Some {| metadata := {| total_qa_pairs := 2; meta_categories := ["a"];
                               category_counts := [("a", 1%Z)];
                               meta_sources := ["Manual"] |};
                qa_pairs := [0; 1];
                categories := [("a", [0; 1])] |})
  /\ (map (fun e : QAPair => normalize <$> e !! "question")
        (heap (snd (add_qa_pair " what is a roth ira? " "Another answer."
                      "Roth IRA basics" "a" "Manual" "high"
                      "2024-01-01T00:00:00" roth_store)))
      = [Some "what is a roth ira?"; Some "what is a roth ira?"]).
Proof. by_evaluation. Qed.

(** C2, as the code has it: on a loaded store [add_qa_pair] never fails
    and never looks at the questions already stored; it allocates the
    new entry, appends it to [qa_pairs] and to the bucket of its category
    (created if absent) and adds one to [total_qa_pairs]. *)
Theorem add_always_appends s d question answer context category source confidence now :
  qa_data s = Some d ->
  exists d',
    add_qa_pair question answer context category source confidence now s
    = (Ok (length (heap s)),
       set_qa_data (Some d')
         (set_heap (heap s ++ [new_qa_pair question answer context category
                                           source confidence now]) s))
    /\ qa_pairs d' = qa_pairs d ++ [length (heap s)]
    /\ total_qa_pairs (metadata d') = (total_qa_pairs (metadata d) + 1)%Z
    /\ dict_get (categories d') category
       = Some (default [] (dict_get (categories d) category) ++ [length (heap s)]).
Proof.
  intros Hd. eexists. split.
  - unfold add_qa_pair. unfold_op. rewrite Hd. cbn [set_heap qa_data heap].
    rewrite Hd. reflexivity.
  - cbn [qa_pairs metadata categories set_total set_meta_categories
           set_meta_sources total_qa_pairs].
    split; [done|]. split; [done|]. apply bucket_append_get.
Qed.

Lemma add_always_appends_witness :
  qa_data roth_store = Some {| metadata := roth_metadata; qa_pairs := [0];
                               categories := [("a", [0])] |}
  /\ exists d',
    add_qa_pair " what is a roth ira? " "Another answer." "Roth IRA basics"
      "a" "Manual" "high" "2024-01-01T00:00:00" roth_store
    = (Ok 1,
       set_qa_data (Some d')
         (set_heap ([roth_entry]
                    ++ [new_qa_pair " what is a roth ira? " "Another answer."
                          "Roth IRA basics" "a" "Manual" "high"
                          "2024-01-01T00:00:00"]) roth_store))
    /\ qa_pairs d' = [0] ++ [1]
    /\ total_qa_pairs (metadata d') = (1 + 1)%Z
    /\ dict_get (categories d') "a" = Some ([0] ++ [1]).
Proof.
  split; [reflexivity|].
  apply (add_always_appends roth_store _ " what is a roth ira? " "Another answer."
           "Roth IRA basics" "a" "Manual" "high" "2024-01-01T00:00:00" eq_refl).
Defined.

Ltac case_on f :=
  match goal with
  | |- context [f ?a ?b ?c ?d] => destruct (f a b c d) eqn:?
  | |- context [f ?a ?b ?c] => destruct (f a b c) eqn:?
  | |- context [f ?a ?b] => destruct (f a b) eqn:?
  end.

(** ** [delete_qa_pair] and [update_qa_pair] *)

(** A successful bucket rewrite stores the filtered list under the same key. *)
Lemma remove_from_bucket_ok cat r s s' d :
  qa_data s = Some d -> remove_from_bucket cat r s = (Ok tt, s') ->
  exists bucket kept,
    dict_get (categories d) cat = Some bucket
    /\ s' = set_qa_data (Some (set_categories (dict_set (categories d) cat kept) d)) s.
Proof.
  intros Hd. unfold remove_from_bucket, dict_getitem. unfold_op. rewrite Hd.
  destruct (dict_get (categories d) cat) as [bucket|]; [|done].
  case_on getitem; [|done].
  case_on filter_other_questions; [|done].
  intros [= <-]. eauto.
Qed.

Lemma remove_from_bucket_keys cat r s s' d :
  qa_data s = Some d -> remove_from_bucket cat r s = (Ok tt, s') ->
  exists d', qa_data s' = Some d'
    /\ dict_keys (categories d') = dict_keys (categories d)
    /\ heap s' = heap s.
Proof.
  intros Hd Hr. destruct (remove_from_bucket_ok _ _ _ _ _ Hd Hr) as (b & kept & Hb & ->).
  eexists. split; [reflexivity|]. split; [|reflexivity].
  simpl. by eapply dict_keys_set_present.
Qed.

(** A category is listed as orphaned exactly when its bucket is empty. *)
Lemma orphaned_spec (cats : list (string * list ref)) c :
  c ∈ orphaned cats <-> (c, []) ∈ cats.
Proof.
  unfold orphaned. rewrite list_elem_of_fmap. split.
  - intros ([k b] & -> & Hin). apply list_elem_of_filter in Hin as [Hb Hin].
    simpl in *. apply bool_decide_unpack in Hb as ->. done.
  - intros Hin. exists (c, []). split; [done|].
    apply list_elem_of_filter. split; [|done]. cbn [snd]. by apply bool_decide_pack.
Qed.

Lemma validate_orphaned {LC : PyStr.Lowercase} s d issues s' :
  qa_data s = Some d ->
  validate_qa_pairs s = (Ok issues, s') ->
  orphaned_categories issues = orphaned (categories d).
Proof.
  intros Hd. unfold validate_qa_pairs. unfold_op.
  rewrite Hd; cbn beta iota; rewrite Hd; cbn beta iota.
  case_on validate_entries; [|done]. by intros [= <- <-].
Qed.

(** C5, as the code has it: neither [delete_qa_pair] nor
    [update_qa_pair] removes a key from [categories]. After a successful
    delete the bucket keys are those before it, in the same order, so a
    bucket emptied by the deletion stays with an empty list; after a
    successful update every key present before is still present (a new
    category is added at the end). A validation that returns lists under
    [orphaned_categories] exactly the keys whose bucket is empty. *)
Theorem buckets_never_pruned {LC : PyStr.Lowercase} s d :
  qa_data s = Some d ->
  (forall question s', delete_qa_pair question s = (Ok true, s') ->
     exists d', qa_data s' = Some d'
       /\ dict_keys (categories d') = dict_keys (categories d))
  /\ (forall question new_answer new_context new_category new_confidence now r s',
       update_qa_pair question new_answer new_context new_category new_confidence
         now s = (Ok (Some r), s') ->
       exists d', qa_data s' = Some d'
         /\ dict_keys (categories d) `prefix_of` dict_keys (categories d'))
  /\ (forall issues s', validate_qa_pairs s = (Ok issues, s') ->
       forall c, c ∈ orphaned_categories issues <-> (c, []) ∈ categories d).
Proof.
  intros Hd. split; [|split].
  - intros question s'. unfold delete_qa_pair. unfold_op.
    rewrite Hd; cbn beta iota; rewrite Hd; cbn beta iota.
    case_on find_question; [|done]. case_match; [|done]. case_match.
    cbn beta iota. case_on getitem; [|done].
    match goal with |- context [remove_from_bucket ?c ?r ?s0] =>
      destruct (remove_from_bucket c r s0) as [[[]|?] s1] eqn:Hr end; [|done].
    intros [= <-].
    eapply remove_from_bucket_keys in Hr as (d' & Hd' & Hk & _); [|reflexivity].
    eauto.
  - intros question na nc ncat nconf now r s'. unfold update_qa_pair. unfold_op.
    rewrite Hd; cbn beta iota; rewrite Hd; cbn beta iota.
    case_on find_question; [|done]. case_match; [|done]. case_match.
    cbn beta iota. case_on getitem; [|done]. case_on getitem; [|done].
    destruct ncat as [c|]; [|intros [= <- <-]; eauto].
    match goal with |- context [PyStr.truthy c && ?x] =>
      destruct (PyStr.truthy c && x) end; [|intros [= <- <-]; eauto].
    match goal with |- context [remove_from_bucket ?c ?r ?s0] =>
      destruct (remove_from_bucket c r s0) as [[[]|?] s1] eqn:Hr end; [|done].
    eapply remove_from_bucket_keys in Hr as (d' & Hd' & Hk & _); [|exact Hd].
    rewrite Hd'. cbn beta iota. intros [= <- <-]. eexists. split; [reflexivity|].
    simpl in Hk. rewrite <- Hk. apply bucket_append_keys.
  - intros issues s' Hv c. rewrite (validate_orphaned _ _ _ _ Hd Hv).
    apply orphaned_spec.
Qed.

(** C5 as stated fails: deleting the only entry of bucket ["a"] leaves
    the key ["a"] with an empty list, which [validate_qa_pairs] then
    reports under [orphaned_categories]; moving the entry to category
    ["b"] leaves ["a"] empty as well. *)
Lemma delete_leaves_empty_bucket :
  delete_qa_pair "what is a roth ira?" roth_store
  = (Ok true,
     set_qa_data
       (Some {| metadata := set_total 0 roth_metadata; qa_pairs := [];
                categories := [("a", [])] |}) roth_store)
  /\ fst (validate_qa_pairs (snd (delete_qa_pair "what is a roth ira?" roth_store)))
     = Ok {| missing_fields := []; duplicate_questions := []; empty_answers := [];
             low_confidence := []; orphaned_categories := ["a"] |}
  /\ fst (update_qa_pair "what is a roth ira?" None None (Some "b") None
            "2024-01-01T00:00:00" roth_store) = Ok (Some 0)
  /\ categories <$> qa_data (snd (update_qa_pair "what is a roth ira?" None None
                                    (Some "b") None "2024-01-01T00:00:00" roth_store))
     = Some [("a", []); ("b", [0])].
Proof. by_evaluation. Qed.

Lemma buckets_never_pruned_witness :
  qa_data roth_store = Some {| metadata := roth_metadata; qa_pairs := [0];
                               categories := [("a", [0])] |}
  /\ (exists d',
        qa_data (snd (delete_qa_pair "what is a roth ira?" roth_store)) = Some d'
        /\ dict_keys (categories d') = ["a"])
  /\ validate_qa_pairs (snd (delete_qa_pair "what is a roth ira?" roth_store))
     = (Ok {| missing_fields := []; duplicate_questions := [];
              empty_answers := []; low_confidence := [];
              orphaned_categories := ["a"] |},
        snd (delete_qa_pair "what is a roth ira?" roth_store))
  /\ ("a" ∈ ["a"] <-> ("a", [] : list ref) ∈ [("a", [] : list ref)]).
Proof.
  assert (qa_data (snd (delete_qa_pair "what is a roth ira?" roth_store))
          = Some {| metadata := set_total 0 roth_metadata; qa_pairs := [];
                    categories := [("a", [])] |}) as Hemptied
    by (vm_compute; reflexivity).
  assert (validate_qa_pairs (snd (delete_qa_pair "what is a roth ira?" roth_store))
          = (Ok {| missing_fields := []; duplicate_questions := [];
                   empty_answers := []; low_confidence := [];
                   orphaned_categories := ["a"] |},
             snd (delete_qa_pair "what is a roth ira?" roth_store))) as Hvalidate
    by (vm_compute; reflexivity).
  split; [reflexivity|]. split; [|split; [exact Hvalidate|]].
  - destruct (buckets_never_pruned roth_store _ eq_refl) as [Hdelete _].
    apply (Hdelete "what is a roth ira?"). vm_compute. reflexivity.
  - destruct (buckets_never_pruned _ _ Hemptied) as (_ & _ & Hreport).
    apply (Hreport _ _ Hvalidate "a").
Defined.

(** ** [validate_qa_pairs] *)

(** C7 fails on the code: for an entry without a ['question'] key the
    scan notes the missing field and then raises [KeyError] at
    [qa_pair['question']], so no report is returned. The store itself is
    left as it was. *)
Theorem validate_raises_on_missing_question {LC : PyStr.Lowercase} :
  field_missing incomplete_entry "question" = true
  /\ validate_qa_pairs incomplete_store
     = (Raise (KeyError "question"), incomplete_store).
Proof. split; vm_compute; reflexivity. Qed.

(** On a loaded store [validate_qa_pairs] changes nothing, whatever it returns. *)
Lemma validate_frame {LC : PyStr.Lowercase} s d : qa_data s = Some d -> snd (validate_qa_pairs s) = s.
Proof.
  intros Hd. unfold validate_qa_pairs. unfold_op.
  rewrite Hd; cbn beta iota; rewrite Hd; cbn beta iota.
  case_on validate_entries; reflexivity.
Qed.

(** When every entry has a ['question'], a report is returned. *)
Lemma validate_total {LC : PyStr.Lowercase} s d :
  qa_data s = Some d ->
  Forall (fun r => is_Some (deref (heap s) r !! "question")) (qa_pairs d) ->
  exists issues, validate_qa_pairs s = (Ok issues, s).
Proof.
  intros Hd Hq. unfold validate_qa_pairs. unfold_op.
  rewrite Hd; cbn beta iota; rewrite Hd; cbn beta iota.
  assert (forall acc, exists acc', validate_entries (heap s) acc (qa_pairs d) = Ok acc') as Hok.
  { induction Hq as [|r refs [q Hr] _ IH]; intros acc; simpl; [eauto|].
    unfold validate_entry, getitem. destruct acc as [issues seen]. rewrite Hr.
    apply IH. }
  destruct (Hok (no_issues, [])) as [acc' ->]. eauto.
Qed.

(** ** [import_category] *)

(** Writing the ['category'] of an object leaves every ['question'] as it was. *)
Lemma deref_insert_question h r e r' :
  e !! "question" = deref h r !! "question" ->
  deref (<[r := e]> h) r' !! "question" = deref h r' !! "question".
Proof.
  intros He. unfold deref. destruct (decide (r = r')) as [<-|Hne].
  - destruct (decide (r < length h)) as [Hlt|Hge].
    + rewrite list_lookup_insert_eq by done. done.
    + rewrite list_insert_ge by lia. done.
  - rewrite list_lookup_insert_ne by done. done.
Qed.

(** [set_if_given] on ['category'] does not touch ['question']. *)
Lemma set_if_given_category_question o (e : QAPair) :
  set_if_given "category" o e !! "question" = e !! "question".
Proof.
  unfold set_if_given. destruct o as [v|]; [|done].
  destruct (PyStr.truthy v); [|done]. by rewrite lookup_insert_ne.
Qed.

(** One successful round appends the entry and counts it. *)
Lemma import_one_ok category r s s' d :
  qa_data s = Some d -> import_one category r s = (Ok tt, s') ->
  exists d', qa_data s' = Some d'
    /\ qa_pairs d' = qa_pairs d ++ [r]
    /\ total_qa_pairs (metadata d') = (total_qa_pairs (metadata d) + 1)%Z
    /\ length (heap s') = length (heap s)
    /\ forall r', deref (heap s') r' !! "question" = deref (heap s) r' !! "question".
Proof.
  intros Hd. unfold import_one. unfold_op.
  destruct (given category); cbn beta iota.
  - cbn [qa_data set_heap]. rewrite Hd; cbn beta iota.
    cbn [heap set_qa_data set_heap].
    case_on getitem; [|done]. case_on getitem; [|done].
    intros [= <-]. eexists. split; [reflexivity|]. cbn.
    repeat split; try done.
    + by rewrite length_insert.
    + intros r'. apply deref_insert_question, set_if_given_category_question.
  - rewrite Hd; cbn beta iota. cbn [heap set_qa_data].
    case_on getitem; [|done]. case_on getitem; [|done].
    intros [= <-]. eexists. split; [reflexivity|]. cbn. done.
Qed.

(** The whole loop appends every reference it is given, in order. *)
Lemma import_all_ok category refs : forall s s' d,
  qa_data s = Some d -> import_all category refs s = (Ok tt, s') ->
  exists d', qa_data s' = Some d'
    /\ qa_pairs d' = qa_pairs d ++ refs
    /\ total_qa_pairs (metadata d') = (total_qa_pairs (metadata d) + Z.of_nat (length refs))%Z
    /\ length (heap s') = length (heap s)
    /\ forall r', deref (heap s') r' !! "question" = deref (heap s) r' !! "question".
Proof.
  induction refs as [|r refs IH]; intros s s' d Hd; simpl.
  - unfold_op. intros [= <-]. exists d. rewrite app_nil_r, Z.add_0_r. done.
  - unfold mbind, Op_bind.
    destruct (import_one category r s) as [[[]|e] s1] eqn:H1; [|done].
    intros H2.
    destruct (import_one_ok _ _ _ _ _ Hd H1) as (d1 & Hd1 & Hq1 & Ht1 & Hl1 & Hh1).
    destruct (IH _ _ _ Hd1 H2) as (d2 & Hd2 & Hq2 & Ht2 & Hl2 & Hh2).
    exists d2. split; [done|]. split; [by rewrite Hq2, Hq1, <- app_assoc|].
    split; [rewrite Ht2, Ht1; lia|]. split; [congruence|].
    intros r'. by rewrite Hh2, Hh1.
Qed.

(** Freshly allocated references point to the allocated values. *)
Lemma map_deref_alloc h vs ext :
  map (deref (h ++ vs ++ ext)) (seq (length h) (length vs)) = vs.
Proof.
  revert h. induction vs as [|v vs IH]; intros h; simpl; [done|].
  f_equal.
  - unfold deref. rewrite lookup_app_r by lia. by rewrite Nat.sub_diag.
  - specialize (IH (h ++ [v])). rewrite length_app in IH. simpl in IH.
    rewrite Nat.add_1_r in IH. rewrite <- app_assoc in IH. exact IH.
Qed.

(** One successful round, in full: the entry gets the category given as
    override, if any, and goes to the end of the bucket of its category. *)
Lemma import_one_spec category r s s' d :
  qa_data s = Some d -> import_one category r s = (Ok tt, s') ->
  exists d' cat,
    qa_data s' = Some d'
    /\ heap s' = <[r := set_if_given "category" category (deref (heap s) r)]> (heap s)
    /\ r < length (heap s)
    /\ deref (heap s') r !! "category" = Some cat
    /\ categories d' = bucket_append (categories d) cat r.
Proof.
  intros Hd. unfold import_one. unfold_op.
  destruct (given category) eqn:Hg; cbn beta iota.
  - cbn [qa_data set_heap]. rewrite Hd; cbn beta iota.
    cbn [heap set_qa_data set_heap].
    unfold getitem at 1.
    destruct (deref _ r !! "category") as [cat|] eqn:Hc; [|done].
    case_on getitem; [|done].
    intros [= <-]. eexists _, cat. cbn.
    split; [reflexivity|]. split; [done|]. split; [|done].
    apply deref_valid in Hc. by rewrite length_insert in Hc.
  - rewrite Hd; cbn beta iota. cbn [heap set_qa_data].
    unfold getitem at 1.
    destruct (deref (heap s) r !! "category") as [cat|] eqn:Hc; [|done].
    case_on getitem; [|done].
    intros [= <-]. eexists _, cat. cbn.
    apply deref_valid in Hc as Hr.
    assert (set_if_given "category" category (deref (heap s) r) = deref (heap s) r)
      as ->.
    { unfold set_if_given, given in *. destruct category as [v|]; [|done].
      by rewrite Hg. }
    assert (<[r := deref (heap s) r]> (heap s) = heap s) as ->.
    { apply list_insert_id. unfold deref.
      destruct (heap s !! r) eqn:E; [done|].
      apply lookup_ge_None in E. lia. }
    done.
Qed.

(** The whole loop over distinct references: every entry gets the
    override, no other object changes, and every bucket grows by the new
    entries of its category, in order. *)
Lemma import_all_spec category refs : forall s s' d,
  NoDup refs ->
  qa_data s = Some d -> import_all category refs s = (Ok tt, s') ->
  exists d',
    qa_data s' = Some d'
    /\ (forall r', r' ∉ refs -> deref (heap s') r' = deref (heap s) r')
    /\ Forall (fun r => deref (heap s') r
                        = set_if_given "category" category (deref (heap s) r)) refs
    /\ forall c,
         default [] (dict_get (categories d') c)
         = default [] (dict_get (categories d) c)
           ++ filter (fun r => deref (heap s') r !! "category" = Some c) refs.
Proof.
  induction refs as [|r refs IH]; intros s s' d Hnd Hd; simpl.
  - unfold_op. intros [= <-]. exists d. split; [done|]. split; [done|].
    split; [done|]. intros c. by rewrite app_nil_r.
  - unfold mbind, Op_bind.
    destruct (import_one category r s) as [[[]|e] s1] eqn:H1; [|done].
    intros H2. apply NoDup_cons in Hnd as [Hr Hnd].
    destruct (import_one_spec _ _ _ _ _ Hd H1) as (d1 & cat & Hd1 & Hh1 & Hv & Hc1 & Hb1).
    destruct (IH _ _ _ Hnd Hd1 H2) as (d2 & Hd2 & Hframe & Hall & Hcats).
    assert (deref (heap s1) r
            = set_if_given "category" category (deref (heap s) r)) as Hr1.
    { rewrite Hh1. by apply deref_insert_eq. }
    exists d2. split; [done|]. split; [|split].
    + intros r' Hr'. apply not_elem_of_cons in Hr' as [Hne Hr'].
      rewrite Hframe by done. rewrite Hh1. by apply deref_insert_ne.
    + constructor.
      * rewrite Hframe by done. done.
      * apply Forall_forall. intros r' Hin.
        rewrite Forall_forall in Hall. rewrite (Hall r' Hin).
        rewrite Hh1. rewrite deref_insert_ne; [done|].
        intros ->. done.
    + intros c. rewrite Hcats, Hb1. rewrite filter_cons.
      rewrite (Hframe r Hr), Hc1.
      destruct (decide (cat = c)) as [->|Hne].
      * rewrite decide_True by done. rewrite bucket_append_get.
        change (default [] (Some ?l)) with l. by rewrite <- app_assoc.
      * rewrite decide_False by congruence.
        by rewrite bucket_append_get_ne.
Qed.

Lemma map_ext_Forall {A B} (f g : A -> B) l :
  Forall (fun x => f x = g x) l -> map f l = map g l.
Proof. induction 1 as [|x l Hx _ IH]; [done|]. simpl. by rewrite Hx, IH. Qed.

(** C6, as the code has it: [import_category] has no duplicate check.
    An import into a loaded store that returns has appended every entry
    of the file's ['qa_pairs'], in order, as a new object that differs
    from the entry read only by the category given as override, if any;
    it has added their number to [total_qa_pairs] and appended each new
    entry to the bucket of its category, in order; nothing is skipped. *)
Theorem import_appends_all s d import_file category j s' :
  qa_data s = Some d ->
  fs s !! import_file = Some (KnowledgeBase j) ->
  import_category import_file category s = (Ok tt, s') ->
  exists d', qa_data s' = Some d'
    /\ qa_pairs d' = qa_pairs d ++ seq (length (heap s)) (length (qa_pairs j))
    /\ total_qa_pairs (metadata d')
       = (total_qa_pairs (metadata d) + Z.of_nat (length (qa_pairs j)))%Z
    /\ map (fun r => deref (heap s') r !! "question")
         (seq (length (heap s)) (length (qa_pairs j)))
       = map (fun e : QAPair => e !! "question") (qa_pairs j)
    /\ map (deref (heap s')) (seq (length (heap s)) (length (qa_pairs j)))
       = map (set_if_given "category" category) (qa_pairs j)
    /\ forall c,
         default [] (dict_get (categories d') c)
         = default [] (dict_get (categories d) c)
           ++ filter (fun r => deref (heap s') r !! "category" = Some c)
                (seq (length (heap s)) (length (qa_pairs j))).
Proof.
  intros Hd Hf. unfold import_category, alloc. rewrite Hf.
  unfold mbind, Op_bind, ensure_loaded. cbn [qa_data set_heap]. rewrite Hd.
  intros Hall.
  pose proof Hall as Hspec.
  eapply import_all_ok in Hall as (d' & Hd' & Hq & Ht & _ & Hh); [|exact Hd].
  eapply import_all_spec in Hspec as (d'' & Hd'' & _ & Hnew & Hcats);
    [|apply NoDup_seq|exact Hd].
  rewrite Hd' in Hd''. injection Hd'' as <-.
  exists d'. rewrite length_seq in Ht. split; [done|]. split; [done|]. split; [done|].
  cbn [heap set_heap] in Hh, Hnew.
  assert (map (deref (heap s ++ qa_pairs j))
            (seq (length (heap s)) (length (qa_pairs j))) = qa_pairs j) as Hread.
  { rewrite <- (app_nil_r (qa_pairs j)) at 1. apply map_deref_alloc. }
  split; [|split; [|done]].
  - erewrite map_ext by (intros; apply Hh).
    rewrite <- (map_map (deref (heap s ++ qa_pairs j))
                  (fun e : QAPair => e !! "question")).
    by rewrite Hread.
  - rewrite (map_ext_Forall _ _ _ Hnew).
    rewrite <- (map_map (deref (heap s ++ qa_pairs j))
                  (set_if_given "category" category)).
    by rewrite Hread.
Qed.

(** C6 as stated fails: importing a batch whose two entries repeat the
    stored question (up to case and spaces) appends both. *)
Lemma import_keeps_duplicates :
  fst (import_category "batch.json" None roth_store) = Ok tt
  /\ qa_data (snd (import_category "batch.json" None roth_store))
     = Some {| metadata := {| total_qa_pairs := 3; meta_categories := ["a"];
                              category_counts := [("a", 1%Z)];
                              meta_sources := ["Manual"; "Import"] |};
               qa_pairs := [0; 1; 2];
               categories := [("a", [0; 1; 2])] |}
  /\ map (fun e : QAPair => normalize <$> e !! "question")
       (heap (snd (import_category "batch.json" None roth_store)))
     = [Some "what is a roth ira?"; Some "what is a roth ira?";
        Some "what is a roth ira?"].
Proof. by_evaluation. Qed.

Lemma import_appends_all_witness :
  qa_data roth_store = Some {| metadata := roth_metadata; qa_pairs := [0];
                               categories := [("a", [0])] |}
  /\ fs roth_store !! "batch.json" = Some (KnowledgeBase batch_json)
  /\ exists d',
       qa_data (snd (import_category "batch.json" (Some "b") roth_store)) = Some d'
       /\ qa_pairs d' = [0] ++ seq 1 2
       /\ total_qa_pairs (metadata d') = (1 + Z.of_nat 2)%Z
       /\ map (fun r =>
                 deref (heap (snd (import_category "batch.json" (Some "b")
                                     roth_store))) r !! "question") (seq 1 2)
          = map (fun e : QAPair => e !! "question") [shouted_entry; roth_entry]
       /\ map (deref (heap (snd (import_category "batch.json" (Some "b")
                                   roth_store)))) (seq 1 2)
          = map (set_if_given "category" (Some "b")) [shouted_entry; roth_entry]
       /\ forall c,
            default [] (dict_get (categories d') c)
            = default [] (dict_get [("a", [0])] c)
              ++ filter (fun r =>
                           deref (heap (snd (import_category "batch.json"
                                               (Some "b") roth_store))) r
                             !! "category" = Some c) (seq 1 2).
Proof.
  split; [reflexivity|]. split; [vm_compute; reflexivity|].
  apply (import_appends_all roth_store _ "batch.json" (Some "b") batch_json
           (snd (import_category "batch.json" (Some "b") roth_store)) eq_refl).
  - vm_compute. reflexivity.
  - vm_compute. reflexivity.
Defined.

(** ** [save_qa_data] and [load_qa_data] *)

(** With a readable JSON file in place the backup is written. *)
Lemma backup_step_ok out bak s current :
  fs s !! out = Some current -> current <> NotJson ->
  backup_step out bak NoFault s
  = (Ok tt, set_fs (<[bak := current]> (fs s)) s)
  /\ backup_step out bak PrimaryWriteFails s
     = (Ok tt, set_fs (<[bak := current]> (fs s)) s).
Proof.
  intros Hf Hc. unfold backup_step. rewrite Hf. destruct current; done.
Qed.

(** A failure of the backup block leaves the data file as it was. *)
Lemma backup_step_fails out bak fault s current :
  fs s !! out = Some current -> bak <> out ->
  fault = ReadFails \/ fault = BackupWriteFails \/ current = NotJson ->
  exists e s', backup_step out bak fault s = (Raise e, s')
    /\ fs s' !! out = Some current.
Proof.
  intros Hf Hne Hfail. unfold backup_step. rewrite Hf.
  destruct Hfail as [->|[->| ->]].
  - eauto.
  - destruct current; eexists _, _; (split; [reflexivity|]); simpl;
      rewrite ?lookup_insert_ne by done; done.
  - destruct fault; eauto.
Qed.

(** C4, as the code has it, for a data file that exists and a backup path
    different from it. When the backup block fails (reading the current
    file, parsing it, or writing the backup) [save_qa_data] raises and the
    data file keeps its content. Without a failure the backup file named
    by the timestamp holds the previous content and the data file the new
    one. When the write of the data file itself fails, the previous
    content is in the backup file and the data file is left truncated. *)
Theorem backup_before_overwrite s output_file timestamp current :
  fs s !! default (qa_data_file s) output_file = Some current ->
  backup_path (backup_dir s) timestamp <> default (qa_data_file s) output_file ->
  (forall fault,
     fault = ReadFails \/ fault = BackupWriteFails \/ current = NotJson ->
     exists e s', save_qa_data output_file timestamp fault s = (Raise e, s')
       /\ fs s' !! default (qa_data_file s) output_file = Some current)
  /\ (current <> NotJson ->
      exists s', save_qa_data output_file timestamp NoFault s = (Ok tt, s')
        /\ fs s' !! backup_path (backup_dir s) timestamp = Some current
        /\ fs s' !! default (qa_data_file s) output_file = Some (serialized s))
  /\ (current <> NotJson ->
      exists e s', save_qa_data output_file timestamp PrimaryWriteFails s = (Raise e, s')
        /\ fs s' !! backup_path (backup_dir s) timestamp = Some current
        /\ fs s' !! default (qa_data_file s) output_file = Some NotJson).
Proof.
  intros Hf Hne. unfold save_qa_data, mbind, Op_bind. repeat split.
  - intros fault Hfail.
    destruct (backup_step_fails _ _ _ _ _ Hf Hne Hfail) as (e & s' & -> & Hs').
    eauto.
  - intros Hc. destruct (backup_step_ok _ (backup_path (backup_dir s) timestamp) _ _ Hf Hc)
      as [-> _].
    eexists. split; [reflexivity|]. simpl.
    rewrite lookup_insert_ne by done. rewrite !lookup_insert_eq. done.
  - intros Hc. destruct (backup_step_ok _ (backup_path (backup_dir s) timestamp) _ _ Hf Hc)
      as [_ ->].
    eexists _, _. split; [reflexivity|]. simpl.
    rewrite lookup_insert_ne by done. rewrite !lookup_insert_eq. done.
Qed.

(** C4 as stated fails: when the write of the data file fails part-way,
    the call raises and the data file no longer holds its previous
    content; that content is in the backup file. *)
Lemma failed_write_truncates_data_file :
  fs roth_store !! "kb.json" = Some (KnowledgeBase roth_json)
  /\ fst (save_qa_data None "20240101_000000" PrimaryWriteFails roth_store)
     = Raise (OSError "write")
  /\ fs (snd (save_qa_data None "20240101_000000" PrimaryWriteFails roth_store))
       !! "kb.json" = Some NotJson
  /\ fs (snd (save_qa_data None "20240101_000000" PrimaryWriteFails roth_store))
       !! "qa_backups/qa_backup_20240101_000000.json"
     = Some (KnowledgeBase roth_json).
Proof. by_evaluation. Qed.

Lemma backup_before_overwrite_witness :
  fs roth_store !! default (qa_data_file roth_store) None
  = Some (KnowledgeBase roth_json)
  /\ backup_path (backup_dir roth_store) "20240101_000000"
     <> default (qa_data_file roth_store) None
  /\ exists e s',
       save_qa_data None "20240101_000000" BackupWriteFails roth_store = (Raise e, s')
       /\ fs s' !! default (qa_data_file roth_store) None
          = Some (KnowledgeBase roth_json).
Proof.
  assert (fs roth_store !! default (qa_data_file roth_store) None
          = Some (KnowledgeBase roth_json)) as Hf by (vm_compute; reflexivity).
  assert (backup_path (backup_dir roth_store) "20240101_000000"
          <> default (qa_data_file roth_store) None) as Hne by (vm_compute; discriminate).
  split; [exact Hf|]. split; [exact Hne|].
  destruct (backup_before_overwrite roth_store None "20240101_000000" _ Hf Hne)
    as [Hfail _].
  apply (Hfail BackupWriteFails). right. left. reflexivity.
Defined.

(** Loading allocates the buckets after the heap it starts from. *)
Lemma alloc_buckets_spec bs : forall h bs' h',
  alloc_buckets h bs = (bs', h') ->
  exists ext, h' = h ++ ext
    /\ forall ext2,
         map (fun b : string * list ref => (fst b, map (deref (h' ++ ext2)) (snd b))) bs'
         = bs.
Proof.
  induction bs as [|[c vs] bs IH]; intros h bs' h'; simpl.
  - intros [= <- <-]. exists []. rewrite app_nil_r. done.
  - destruct (alloc_buckets (h ++ vs) bs) as [bs1 h1] eqn:Hrec.
    intros [= <- <-].
    destruct (IH _ _ _ Hrec) as (ext & -> & Hmap).
    exists (vs ++ ext). split; [by rewrite app_assoc|].
    intros ext2. simpl. f_equal; [|apply Hmap].
    f_equal. rewrite <- !app_assoc. apply map_deref_alloc.
Qed.

(** Reading a knowledge base and writing it again gives the same document. *)
Lemma dump_alloc_data h j d h' :
  alloc_data h j = (d, h') -> dump h' d = j.
Proof.
  unfold alloc_data, alloc.
  destruct (alloc_buckets (h ++ qa_pairs j) (categories j)) as [bs h2] eqn:Hb.
  intros [= <- <-].
  destruct (alloc_buckets_spec _ _ _ _ Hb) as (ext & -> & Hmap).
  unfold dump, map_data. destruct j as [m qs cs]. simpl in *. f_equal.
  - rewrite <- app_assoc. apply map_deref_alloc.
  - specialize (Hmap []). rewrite app_nil_r in Hmap. exact Hmap.
Qed.

(** C8, as the code has it: saving a loaded store and loading the file
    again (a manager with no data in memory) yields a store equal by value
    to the one saved: the same entries in the same order, the same
    metadata, and the ['categories'] view exactly as it was written. *)
Theorem load_after_save s d timestamp :
  qa_data s = Some d ->
  fs s !! qa_data_file s <> Some NotJson ->
  exists s1 d2 s2,
    save_qa_data None timestamp NoFault s = (Ok tt, s1)
    /\ load_qa_data (set_qa_data None s1) = (Ok (Some d2), s2)
    /\ qa_data s2 = Some d2
    /\ dump (heap s2) d2 = dump (heap s) d.
Proof.
  intros Hd Hc.
  assert (exists f, save_qa_data None timestamp NoFault s
                    = (Ok tt, set_fs (<[qa_data_file s := serialized s]> f) s))
    as [f Hsave].
  { unfold save_qa_data, mbind, Op_bind, backup_step, write_step. simpl.
    destruct (fs s !! qa_data_file s) as [[j| |]|]; try done; eauto. }
  rewrite Hsave. unfold serialized. rewrite Hd.
  destruct (alloc_data (heap s) (dump (heap s) d)) as [d2 h2] eqn:Ha.
  exists (set_fs (<[qa_data_file s := KnowledgeBase (dump (heap s) d)]> f) s), d2,
    (set_qa_data (Some d2)
       (set_heap h2
          (set_qa_data None
             (set_fs (<[qa_data_file s := KnowledgeBase (dump (heap s) d)]> f) s)))).
  split; [reflexivity|]. split.
  - unfold load_qa_data. cbn [fs qa_data_file set_qa_data set_fs heap].
    rewrite lookup_insert_eq, Ha. reflexivity.
  - split; [reflexivity|]. simpl. by apply dump_alloc_data in Ha.
Qed.

(** C8 as stated fails: a file whose ['categories'] view lacks the entry
    of ['qa_pairs'] is loaded as it is; the view is not rebuilt. *)
Lemma load_keeps_stale_categories :
  roth_entry !! "category" = Some "a"
  /\ load_qa_data stale_disk
     = (Ok (Some {| metadata := roth_metadata; qa_pairs := [0]; categories := [] |}),
        {| qa_data_file := "kb.json"; backup_dir := "qa_backups";
           qa_data := Some {| metadata := roth_metadata; qa_pairs := [0];
                              categories := [] |};
           heap := [roth_entry];
           fs := fs stale_disk |}).
Proof. split; vm_compute; reflexivity. Qed.

Lemma load_after_save_witness :
  qa_data roth_store = Some {| metadata := roth_metadata; qa_pairs := [0];
                               categories := [("a", [0])] |}
  /\ fs roth_store !! qa_data_file roth_store <> Some NotJson
  /\ exists s1 d2 s2,
       save_qa_data None "20240101_000000" NoFault roth_store = (Ok tt, s1)
       /\ load_qa_data (set_qa_data None s1) = (Ok (Some d2), s2)
       /\ qa_data s2 = Some d2
       /\ dump (heap s2) d2 = roth_json.
Proof.
  assert (fs roth_store !! qa_data_file roth_store <> Some NotJson) as Hc
    by (vm_compute; discriminate).
  split; [reflexivity|]. split; [exact Hc|].
  apply (load_after_save roth_store _ "20240101_000000" eq_refl Hc).
Defined.

End StoreFacts.

(** * Further properties of the router *)
Module RouterExtras.
Import Pipeline PipelineFacts.

#[local] Opaque base_prompt grounded_prompt parse_qa parse_doc PyStr.join
  context_part doc_source T_curated.

(** X1: in hybrid mode, when both searches come back empty (a store absent,
    raising, or returning no result), the calls are the searches made
    followed by one generation with the ungrounded prompt, and the
    envelope is the fallback one; a generation error propagates. *)
Theorem fallback_when_searches_empty self question now :
  snd (search_qa_data self question 2) = Ok [] ->
  snd (search_documents self question 3) = Ok [] ->
  ask_question self question true now
  = (fst (search_qa_data self question 2)
       ++ fst (search_documents self question 3)
       ++ [Generate (base_prompt question)],
     match llm self (base_prompt question) with
     | Ok generated => Ok (fallback_envelope question now generated)
     | Raise e => Raise e
     end).
Proof.
  unfold_router.
  destruct (qa_vector_store self) as [qs|], (doc_vector_store self) as [ds|]; simpl.
  - destruct (qs question 2) as [[|? ?]|]; simpl; try done;
      destruct (ds question 3) as [[|? ?]|]; simpl; try done;
      destruct (llm self (base_prompt question)); done.
  - destruct (qs question 2) as [[|? ?]|]; simpl; try done;
      destruct (llm self (base_prompt question)); done.
  - destruct (ds question 3) as [[|? ?]|]; simpl; try done;
      destruct (llm self (base_prompt question)); done.
  - destruct (llm self (base_prompt question)); done.
Qed.

Lemma fallback_when_searches_empty_witness :
  snd (search_qa_data empty_pipeline "What is a Roth IRA?" 2) = Ok []
  /\ snd (search_documents empty_pipeline "What is a Roth IRA?" 3) = Ok []
  /\ ask_question empty_pipeline "What is a Roth IRA?" true "2024-01-01T00:00:00"
     = ([QASearch "What is a Roth IRA?" 2; DocSearch "What is a Roth IRA?" 3;
         Generate (base_prompt "What is a Roth IRA?")],
        Ok (fallback_envelope "What is a Roth IRA?" "2024-01-01T00:00:00"
              "generated text")).
Proof.
  split; [reflexivity|]. split; [reflexivity|].
  apply (fallback_when_searches_empty empty_pipeline "What is a Roth IRA?"
           "2024-01-01T00:00:00" eq_refl eq_refl).
Defined.

(** X2: in hybrid mode, when tier 1 does not accept and the document
    search returns at least one passage, the router makes one generation
    call with the grounded prompt built from all passages in order and
    returns the grounded envelope with one source per passage, in the
    same order; when that generation raises, [ask_question] raises too and
    tier 3 is not tried. *)
Theorem grounded_when_documents_found self doc_store question now t1 qa_results d docs :
  search_qa_data self question 2 = (t1, Ok qa_results) ->
  curated_accepts qa_results = false ->
  doc_vector_store self = Some doc_store ->
  doc_store question 3 = Ok (d :: docs) ->
  ask_question self question true now
  = (t1 ++ [DocSearch question 3;
            Generate (grounded_prompt
                        (PyStr.join (nl +:+ nl)
                           (map context_part (map parse_doc (d :: docs))))
                        question)],
     match llm self (grounded_prompt
                       (PyStr.join (nl +:+ nl)
                          (map context_part (map parse_doc (d :: docs))))
                       question) with
     | Ok generated =>
         Ok (grounded_envelope question now generated (map parse_doc (d :: docs)))
     | Raise e => Raise e
     end).
Proof.
  intros Hqa Hrej Hds Hdocs.
  assert (search_documents self question 3
          = ([DocSearch question 3], Ok (map parse_doc (d :: docs)))) as Hsd.
  { unfold_router. rewrite Hds. simpl. rewrite Hdocs. done. }
  unfold ask_question, tier1, tier2, mbind, M_bind, bind.
  rewrite Hsd, Hds.
  assert (bool_decide (is_Some (Some doc_store)) = true) as -> by done.
  simpl map. unfold call, ret, grounded_envelope.
  set (prompt := grounded_prompt _ _).
  destruct (qa_vector_store self) as [qa_store|] eqn:Hq.
  - assert (bool_decide (is_Some (Some qa_store)) = true) as -> by done.
    cbn [andb]. rewrite Hqa.
    destruct qa_results as [|best rest]; simpl in *.
    + destruct (llm self prompt); simpl; rewrite ?app_nil_r; done.
    + rewrite Hrej. simpl. destruct (llm self prompt); simpl; rewrite ?app_nil_r; done.
  - unfold search_qa_data in Hqa. rewrite Hq in Hqa. injection Hqa as <- <-.
    assert (bool_decide (is_Some (@None VectorStore)) = false) as -> by done.
    simpl. destruct (llm self prompt); done.
Qed.

Lemma grounded_when_documents_found_witness :
  search_qa_data (sample_pipeline 0x1.999999999999ap-4) "What is a Roth IRA?" 2
  = ([QASearch "What is a Roth IRA?" 2],
     Ok [parse_qa (roth_doc, 0x1.999999999999ap-4%float)])
  /\ curated_accepts [parse_qa (roth_doc, 0x1.999999999999ap-4%float)] = false
  /\ ask_question (sample_pipeline 0x1.999999999999ap-4) "What is a Roth IRA?"
       true "2024-01-01T00:00:00"
     = ([QASearch "What is a Roth IRA?" 2; DocSearch "What is a Roth IRA?" 3;
         Generate (grounded_prompt
                     (PyStr.join (nl +:+ nl)
                        (map context_part
                           (map parse_doc [(wiki_doc, 0x1p-1%float)])))
                     "What is a Roth IRA?")],
        Ok (grounded_envelope "What is a Roth IRA?" "2024-01-01T00:00:00"
              "generated text" (map parse_doc [(wiki_doc, 0x1p-1%float)]))).
Proof.
  assert (curated_accepts [parse_qa (roth_doc, 0x1.999999999999ap-4%float)] = false)
    as Hrej by (vm_compute; reflexivity).
  split; [reflexivity|]. split; [exact Hrej|].
  apply (grounded_when_documents_found (sample_pipeline 0x1.999999999999ap-4)
           (fun _ _ => Ok [(wiki_doc, 0x1p-1%float)]) "What is a Roth IRA?"
           "2024-01-01T00:00:00" [QASearch "What is a Roth IRA?" 2]
           [parse_qa (roth_doc, 0x1.999999999999ap-4%float)]
           (wiki_doc, 0x1p-1%float) [] eq_refl Hrej eq_refl eq_refl).
Defined.

Ltac not_curated :=
  repeat (case_match; simpl in *; simplify_eq); intros; simplify_eq; simpl;
  (split; [done|]); intros (? & ? & ? & ? & ? & ? & ?); simplify_eq; congruence.

(** X3: an envelope has method [qa_data] exactly when the call was in
    hybrid mode, the curated store is present, and its search with k = 2
    returned a first result with a score strictly above 0.7. *)
Theorem curated_exactly_above_threshold self question use_hybrid now t env :
  ask_question self question use_hybrid now = (t, Ok env) ->
  (method env = qa_data
   <-> use_hybrid = true
       /\ exists store best rest,
            qa_vector_store self = Some store
            /\ store question 2 = Ok (best :: rest)
            /\ PrimFloat.ltb T_curated (snd best) = true).
Proof.
  unfold_router.
  destruct (qa_vector_store self) as [qs|] eqn:Hq; simpl; [|not_curated].
  destruct use_hybrid; simpl; [|not_curated].
  destruct (qs question 2) as [[|best rest]|] eqn:Hs; simpl; [not_curated| |not_curated].
  rewrite parse_qa_score.
  destruct (PrimFloat.ltb T_curated (snd best)) eqn:Hlt; simpl; [|not_curated].
  intros [= <- <-]. simpl. split; [|done]. intros _. split; [done|]. eauto 10.
Qed.

Lemma curated_exactly_above_threshold_witness :
  ask_question (sample_pipeline 0x1.ccccccccccccdp-1) "What is a Roth IRA?"
    true "2024-01-01T00:00:00"
  = ([QASearch "What is a Roth IRA?" 2],
     Ok (curated_envelope "What is a Roth IRA?" "2024-01-01T00:00:00"
           (parse_qa (roth_doc, 0x1.ccccccccccccdp-1%float))))
  /\ (method (curated_envelope "What is a Roth IRA?" "2024-01-01T00:00:00"
                (parse_qa (roth_doc, 0x1.ccccccccccccdp-1%float))) = qa_data
      <-> true = true
          /\ exists store best rest,
               qa_vector_store (sample_pipeline 0x1.ccccccccccccdp-1) = Some store
               /\ store "What is a Roth IRA?" 2 = Ok (best :: rest)
               /\ PrimFloat.ltb T_curated (snd best) = true).
Proof.
  split; [vm_compute; reflexivity|].
  apply (curated_exactly_above_threshold (sample_pipeline 0x1.ccccccccccccdp-1)
           "What is a Roth IRA?" true "2024-01-01T00:00:00"
           [QASearch "What is a Roth IRA?" 2]).
  vm_compute. reflexivity.
Defined.

(** X4: every envelope returned repeats the question asked and the
    timestamp read on entry, and its confidence is fixed by its method:
    [high] for [qa_data], [medium] for [document_search], [low] for
    [base_llm]. *)
Theorem envelope_follows_method self question use_hybrid now t env :
  ask_question self question use_hybrid now = (t, Ok env) ->
  Pipeline.question env = question
  /\ timestamp env = now
  /\ confidence env = match method env with
                      | qa_data => high
                      | document_search => medium
                      | base_llm => low
                      end.
Proof.
  unfold_router.
  repeat (case_match; simpl in *; simplify_eq); intros; simplify_eq; done.
Qed.

Lemma envelope_follows_method_witness :
  ask_question (sample_pipeline 0x1.999999999999ap-4) "What is a Roth IRA?"
    true "2024-01-01T00:00:00"
  = ([QASearch "What is a Roth IRA?" 2; DocSearch "What is a Roth IRA?" 3;
      Generate (grounded_prompt
                  (PyStr.join (nl +:+ nl)
                     (map context_part (map parse_doc [(wiki_doc, 0x1p-1%float)])))
                  "What is a Roth IRA?")],
     Ok (grounded_envelope "What is a Roth IRA?" "2024-01-01T00:00:00"
           "generated text" (map parse_doc [(wiki_doc, 0x1p-1%float)])))
  /\ confidence (grounded_envelope "What is a Roth IRA?" "2024-01-01T00:00:00"
                   "generated text" (map parse_doc [(wiki_doc, 0x1p-1%float)]))
     = medium.
Proof.
  split; [vm_compute; reflexivity|].
  apply (envelope_follows_method (sample_pipeline 0x1.999999999999ap-4)
           "What is a Roth IRA?" true "2024-01-01T00:00:00"
           [QASearch "What is a Roth IRA?" 2; DocSearch "What is a Roth IRA?" 3;
            Generate (grounded_prompt
                        (PyStr.join (nl +:+ nl)
                           (map context_part
                              (map parse_doc [(wiki_doc, 0x1p-1%float)])))
                        "What is a Roth IRA?")]).
  vm_compute. reflexivity.
Defined.

(** X5: whatever the outcome, the collaborator calls of one
    [ask_question] are taken, in this order, from: one curated search with
    k = 2, one document search with k = 3, one generation. No collaborator
    is called twice and no search follows a generation. *)
Theorem calls_in_tier_order self question use_hybrid now t r :
  ask_question self question use_hybrid now = (t, r) ->
  exists prompt,
    t `sublist_of` [QASearch question 2; DocSearch question 3; Generate prompt].
Proof.
  unfold_router.
  repeat (case_match; simpl in *; simplify_eq); intros; simplify_eq;
    rewrite ?app_nil_r; cbn [app]; eexists;
    repeat first [apply sublist_nil | apply sublist_skip | apply sublist_cons].
  Unshelve. all: exact EmptyString.
Qed.

Lemma calls_in_tier_order_witness :
  exists prompt,
    fst (ask_question (sample_pipeline 0x1.999999999999ap-4) "What is a Roth IRA?"
           true "2024-01-01T00:00:00")
    `sublist_of` [QASearch "What is a Roth IRA?" 2;
                  DocSearch "What is a Roth IRA?" 3; Generate prompt].
Proof.
  apply (calls_in_tier_order (sample_pipeline 0x1.999999999999ap-4)
           "What is a Roth IRA?" true "2024-01-01T00:00:00" _
           (snd (ask_question (sample_pipeline 0x1.999999999999ap-4)
                   "What is a Roth IRA?" true "2024-01-01T00:00:00"))).
  vm_compute. reflexivity.
Defined.

#[local] Transparent parse_qa.
#[local] Arguments String.append !s1 s2 / : simpl nomatch.

(** Appending the empty string changes nothing. *)
Lemma append_empty_r (s : string) : s +:+ EmptyString = s.
Proof. induction s as [|c s IH]; cbn [append]; [done|]. f_equal. exact IH. Qed.

(** [split] always returns at least one piece. *)
Lemma split_nonempty c s : PyStr.split c s <> [].
Proof.
  induction s as [|x s IH]; simpl; [done|].
  destruct (Ascii.eqb x c); [done|]. by destruct (PyStr.split c s).
Qed.

(** A separator-free prefix joins the first piece of what follows. *)
Lemma split_app c s1 s2 :
  PyStr.split c s1 = [s1] ->
  PyStr.split c (s1 +:+ s2)
  = (s1 +:+ hd EmptyString (PyStr.split c s2)) :: tl (PyStr.split c s2).
Proof.
  induction s1 as [|x s1 IH]; cbn [append PyStr.split].
  - intros _. destruct (PyStr.split c s2) eqn:E; [by apply split_nonempty in E|done].
  - destruct (Ascii.eqb x c); [done|].
    destruct (PyStr.split c s1) as [|piece rest] eqn:E; [by apply split_nonempty in E|].
    intros [= -> ->]. rewrite IH by done. done.
Qed.

(** A leading line feed opens an empty first piece. *)
Lemma split_nl s :
  PyStr.split "010"%char (nl +:+ s) = EmptyString :: PyStr.split "010"%char s.
Proof. reflexivity. Qed.

(** The five lines of an indexed document with one-line fields. *)
Lemma content_lines context question answer :
  PyStr.split "010"%char context = [context] ->
  PyStr.split "010"%char question = [question] ->
  PyStr.split "010"%char answer = [answer] ->
  PyStr.split "010"%char
    ("Context: " +:+ context +:+ nl +:+ nl
     +:+ "Question: " +:+ question +:+ nl +:+ nl
     +:+ "Answer: " +:+ answer)
  = ["Context: " +:+ context; EmptyString;
     "Question: " +:+ question; EmptyString;
     "Answer: " +:+ answer].
Proof.
  intros Hc Hq Ha.
  rewrite (split_app _ "Context: ") by reflexivity.
  rewrite (split_app _ context) by done.
  rewrite !split_nl.
  rewrite (split_app _ "Question: ") by reflexivity.
  rewrite (split_app _ question) by done.
  rewrite !split_nl.
  rewrite (split_app _ "Answer: ") by reflexivity.
  rewrite Ha. cbn [hd tl]. rewrite !append_empty_r. reflexivity.
Qed.

(** X6: a stored Q&A pair whose context, question and answer are plain
    fields is read back from its indexed document exactly as stored, with
    the category and source of the document's metadata. *)
Theorem parse_qa_roundtrip context question answer source category doc_id score :
  plain_field "Context:" context ->
  plain_field "Question:" question ->
  plain_field "Answer:" answer ->
  parse_qa (qa_document context question answer source category doc_id, score)
  = {| qa_question := question; qa_answer := answer; qa_context := context;
       qa_category := category; qa_source := source;
       qa_similarity_score := score;
       qa_content := page_content
                       (qa_document context question answer source category doc_id) |}.
Proof.
  intros (Hc1 & Hc2 & Hc3) (Hq1 & Hq2 & Hq3) (Ha1 & Ha2 & Ha3).
  unfold parse_qa, qa_document. cbn [page_content doc_metadata].
  rewrite content_lines by done.
  cbn [foldl]. unfold parse_line.
  unfold PyStr.startswith, PyStr.replace in *.
  cbn [String.prefix append PyStr.replace_from String.length Nat.sub Ascii.eqb Bool.eqb
       Ascii.ascii_dec ascii_rec ascii_rect sumbool_rec sumbool_rect Bool.bool_dec bool_rec bool_rect].
  rewrite Hc3, Hq3, Ha3.
  change (PyStr.strip (String " " ?s)) with (PyStr.strip s).
  rewrite Hc2, Hq2, Ha2.
  reflexivity.
Qed.

Lemma parse_qa_roundtrip_witness :
  plain_field "Context:" "Roth IRA basics"
  /\ plain_field "Question:" "What is a Roth IRA?"
  /\ plain_field "Answer:" "A retirement account funded with after-tax money."
  /\ qa_answer (parse_qa (roth_doc, 0x1.ccccccccccccdp-1%float))
     = "A retirement account funded with after-tax money.".
Proof.
  assert (plain_field "Context:" "Roth IRA basics") as Hc by (repeat split).
  assert (plain_field "Question:" "What is a Roth IRA?") as Hq by (repeat split).
  assert (plain_field "Answer:" "A retirement account funded with after-tax money.")
    as Ha by (repeat split).
  split; [exact Hc|]. split; [exact Hq|]. split; [exact Ha|].
  unfold roth_doc.
  rewrite (parse_qa_roundtrip _ _ _ "IRS" "roth_ira_basics" "manual" _ Hc Hq Ha).
  reflexivity.
Defined.

End RouterExtras.

(** * The content manager beyond the specification *)

Module StoreExtras.
Import ContentManager StoreFacts.


(** ** Looking up a question *)

(** A successful scan returns the first entry whose normalized question is
    the key; every entry before it has another one. *)
Lemma find_question_found {LC : PyStr.Lowercase} h refs key : forall i j r,
  find_question h refs key i = Ok (Some (j, r)) ->
  exists q,
    i <= j /\ refs !! (j - i) = Some r
    /\ deref h r !! "question" = Some q /\ normalize q = key
    /\ Forall (fun r' => exists q', deref h r' !! "question" = Some q'
                                    /\ normalize q' <> key) (take (j - i) refs).
Proof.
  induction refs as [|r0 refs IH]; intros i j r; simpl; [done|].
  unfold getitem. destruct (deref h r0 !! "question") as [q0|] eqn:Hq0; [|done].
  destruct (decide (normalize q0 = key)) as [Hk|Hk].
  - intros [= <- <-]. exists q0. rewrite Nat.sub_diag. simpl. eauto 10.
  - intros Hrec. destruct (IH _ _ _ Hrec) as (q & Hle & Hl & Hq & Hn & Hall).
    exists q. replace (j - i) with (S (j - S i)) by lia. simpl.
    repeat split; try done; [lia|]. constructor; eauto.
Qed.

Lemma find_question_none {LC : PyStr.Lowercase} h refs key i :
  Forall (fun r => exists q, deref h r !! "question" = Some q
                             /\ normalize q <> key) refs ->
  find_question h refs key i = Ok None.
Proof.
  intros Hall. revert i. induction Hall as [|r refs (q & Hq & Hn) _ IH]; intros i;
    simpl; [done|].
  unfold getitem. rewrite Hq. rewrite decide_False by done. apply IH.
Qed.

(** X7: a delete or an update whose question equals no stored question,
    compared after lower-casing and stripping, returns [False] (delete)
    or [None] (update) and leaves the manager, the entry objects and the
    files as they were. *)
Theorem absent_question_changes_nothing {LC : PyStr.Lowercase} s d question :
  qa_data s = Some d ->
  Forall (fun r => exists q, deref (heap s) r !! "question" = Some q
                             /\ normalize q <> normalize question) (qa_pairs d) ->
  delete_qa_pair question s = (Ok false, s)
  /\ forall new_answer new_context new_category new_confidence now,
       update_qa_pair question new_answer new_context new_category new_confidence
         now s = (Ok None, s).
Proof.
  intros Hd Hall. pose proof (find_question_none _ _ _ 0 Hall) as Hf. split.
  - unfold delete_qa_pair. unfold_op.
    rewrite Hd; cbn beta iota; rewrite Hd; cbn beta iota. rewrite Hf. done.
  - intros. unfold update_qa_pair. unfold_op.
    rewrite Hd; cbn beta iota; rewrite Hd; cbn beta iota. rewrite Hf. done.
Qed.

(** X8: while nothing is loaded and the data file does not exist,
    [load_qa_data] returns the empty dictionary without setting
    [qa_data], so add, update, delete, validate, search and report all
    raise the [TypeError] of subscripting [None] and change nothing. *)
Theorem missing_file_raises_type_error {LC : PyStr.Lowercase} s :
  qa_data s = None -> fs s !! qa_data_file s = None ->
  let oops := TypeError "'NoneType' object is not subscriptable" in
  load_qa_data s = (Ok None, s)
  /\ (forall question answer context category source confidence now,
        add_qa_pair question answer context category source confidence now s
        = (Raise oops, s))
  /\ (forall question new_answer new_context new_category new_confidence now,
        update_qa_pair question new_answer new_context new_category new_confidence
          now s = (Raise oops, s))
  /\ (forall question, delete_qa_pair question s = (Raise oops, s))
  /\ validate_qa_pairs s = (Raise oops, s)
  /\ (forall query category, search_qa_pairs query category s = (Raise oops, s))
  /\ (forall now, generate_report now s = (Raise oops, s)).
Proof.
  intros Hd Hf oops. split.
  { unfold load_qa_data. by rewrite Hf. }
  repeat split; intros;
    unfold add_qa_pair, update_qa_pair, delete_qa_pair, validate_qa_pairs,
      search_qa_pairs, generate_report, load_qa_data; unfold_op;
    rewrite Hd; unfold_op; unfold load_qa_data; rewrite Hf; cbn beta iota;
    rewrite Hd; done.
Qed.
(** ** [delete_qa_pair] *)

Lemma filter_other_questions_spec h bucket q kept :
  filter_other_questions h bucket q = Ok kept ->
  kept = filter (fun r => deref h r !! "question" <> Some q) bucket.
Proof.
  revert kept. induction bucket as [|r bucket IH]; intros kept; simpl.
  - by intros [= <-].
  - unfold getitem. destruct (deref h r !! "question") as [q0|] eqn:Hq0; [|done].
    destruct (filter_other_questions h bucket q) as [kept0|]; [|done].
    intros [= <-]. rewrite filter_cons. rewrite (IH kept0 eq_refl).
    destruct (decide (q0 = q)) as [->|Hne].
    + rewrite decide_False by (intros H; by apply H). done.
    + rewrite decide_True by congruence. done.
Qed.

Lemma delete_true_shrinks {LC : PyStr.Lowercase} s d question s' :
  qa_data s = Some d ->
  delete_qa_pair question s = (Ok true, s') ->
  exists i d',
    i < length (qa_pairs d)
    /\ qa_data s' = Some d'
    /\ qa_pairs d' = delete i (qa_pairs d)
    /\ total_qa_pairs (metadata d') = (total_qa_pairs (metadata d) - 1)%Z.
Proof.
  intros Hd. unfold delete_qa_pair. unfold_op.
  rewrite Hd; cbn beta iota; rewrite Hd; cbn beta iota.
  destruct (find_question (heap s) (qa_pairs d) (normalize question) 0)
    as [[[i r]|]|] eqn:Hf; [|done..].
  apply find_question_found in Hf as (q & _ & Hi & _).
  rewrite Nat.sub_0_r in Hi. apply lookup_lt_Some in Hi.
  cbn beta iota. case_on getitem; [|done].
  match goal with |- context [remove_from_bucket ?c ?r ?s0] =>
    destruct (remove_from_bucket c r s0) as [[[]|?] s1] eqn:Hrm end; [|done].
  eapply remove_from_bucket_ok in Hrm as (b & kept & _ & ->); [|reflexivity].
  intros [= <-]. eexists i, _. cbn. eauto.
Qed.

(** X9: a delete that returns [True] removed the first entry of
    [qa_pairs] whose normalized question is the normalized argument,
    lowered [total_qa_pairs] by one and replaced the bucket of that
    entry's category by its members whose question differs, as an exact
    string, from the deleted entry's. Nothing else changes. *)
Theorem delete_removes_first_match {LC : PyStr.Lowercase} s d question s' :
  qa_data s = Some d ->
  delete_qa_pair question s = (Ok true, s') ->
  exists i r q category bucket,
    qa_pairs d !! i = Some r
    /\ deref (heap s) r !! "question" = Some q
    /\ normalize q = normalize question
    /\ Forall (fun r' => exists q', deref (heap s) r' !! "question" = Some q'
                                     /\ normalize q' <> normalize question)
         (take i (qa_pairs d))
    /\ deref (heap s) r !! "category" = Some category
    /\ dict_get (categories d) category = Some bucket
    /\ s' = set_qa_data
              (Some {| metadata := set_total (total_qa_pairs (metadata d) - 1)
                                     (metadata d);
                       qa_pairs := delete i (qa_pairs d);
                       categories :=
                         dict_set (categories d) category
                           (filter (fun r' => deref (heap s) r' !! "question" <> Some q)
                              bucket) |}) s.
Proof.
  intros Hd. unfold delete_qa_pair. unfold_op.
  rewrite Hd; cbn beta iota; rewrite Hd; cbn beta iota.
  destruct (find_question (heap s) (qa_pairs d) (normalize question) 0)
    as [[[i r]|]|] eqn:Hf; [|done..].
  apply find_question_found in Hf as (q & _ & Hi & Hq & Hn & Hall).
  rewrite Nat.sub_0_r in Hi, Hall.
  unfold getitem at 1. destruct (deref (heap s) r !! "category") as [cat|] eqn:Hc; [|done].
  unfold remove_from_bucket, dict_getitem. unfold_op. cbn [qa_data set_qa_data categories heap].
  destruct (dict_get (categories d) cat) as [bucket|] eqn:Hb; [|done].
  unfold getitem. rewrite Hq.
  destruct (filter_other_questions (heap s) bucket q) as [kept|] eqn:Hk; [|done].
  apply filter_other_questions_spec in Hk as ->.
  intros [= <-]. exists i, r, q, cat, bucket. done.
Qed.
(** ** The entry count *)

Lemma delete_false_unchanged {LC : PyStr.Lowercase} s d question s' :
  qa_data s = Some d -> delete_qa_pair question s = (Ok false, s') -> s' = s.
Proof.
  intros Hd. unfold delete_qa_pair. unfold_op.
  rewrite Hd; cbn beta iota; rewrite Hd; cbn beta iota.
  case_on find_question; [|done]. case_match; [|by intros [= <-]]. case_match.
  cbn beta iota. case_on getitem; [|done].
  match goal with |- context [remove_from_bucket ?c ?r ?s0] =>
    destruct (remove_from_bucket c r s0) as [[[]|?] s1] end; done.
Qed.

Lemma update_keeps_entries {LC : PyStr.Lowercase} s d question na nc ncat nconf now o s' :
  qa_data s = Some d ->
  update_qa_pair question na nc ncat nconf now s = (Ok o, s') ->
  exists d', qa_data s' = Some d'
    /\ qa_pairs d' = qa_pairs d /\ metadata d' = metadata d /\ fs s' = fs s.
Proof.
  intros Hd. unfold update_qa_pair. unfold_op.
  rewrite Hd; cbn beta iota; rewrite Hd; cbn beta iota.
  case_on find_question; [|done]. case_match; [|intros [= <- <-]; eauto]. case_match.
  cbn beta iota. case_on getitem; [|done]. case_on getitem; [|done].
  destruct ncat as [c|]; [|intros [= <- <-]; eauto].
  match goal with |- context [PyStr.truthy c && ?x] =>
    destruct (PyStr.truthy c && x) end; [|intros [= <- <-]; eauto].
  match goal with |- context [remove_from_bucket ?c ?r ?s0] =>
    destruct (remove_from_bucket c r s0) as [[[]|?] s1] eqn:Hr end; [|done].
  eapply remove_from_bucket_ok in Hr as (b & kept & _ & ->); [|exact Hd].
  cbn. intros [= <- <-]. eauto.
Qed.

(** X10: when [total_qa_pairs] equals the length of [qa_pairs], it
    still does after every successful add, delete, update and import. *)
Theorem total_counts_entries {LC : PyStr.Lowercase} s :
  total_matches s ->
  (forall question answer context category source confidence now r s',
     add_qa_pair question answer context category source confidence now s
     = (Ok r, s') -> total_matches s')
  /\ (forall question b s',
        delete_qa_pair question s = (Ok b, s') -> total_matches s')
  /\ (forall question new_answer new_context new_category new_confidence now o s',
        update_qa_pair question new_answer new_context new_category new_confidence
          now s = (Ok o, s') -> total_matches s')
  /\ (forall import_file category s',
        import_category import_file category s = (Ok tt, s') -> total_matches s').
Proof.
  intros (d & Hd & Ht). repeat split.
  - intros question answer context category source confidence now r s'.
    unfold add_qa_pair. unfold_op.
    rewrite Hd; cbn beta iota. cbn [qa_data set_heap heap]. rewrite Hd.
    intros [= <- <-]. eexists. split; [reflexivity|]. cbn.
    rewrite length_app. simpl. lia.
  - intros question [] s' Hdel.
    + destruct (delete_true_shrinks _ _ _ _ Hd Hdel)
        as (i & d' & Hi & Hd' & Hq & Hm).
      exists d'. split; [done|]. rewrite Hq, Hm.
      destruct (lookup_lt_is_Some_2 _ _ Hi) as [r Hr].
      rewrite length_delete by eauto. lia.
    + rewrite (delete_false_unchanged _ _ _ _ Hd Hdel). by exists d.
  - intros question na nc ncat nconf now o s' Hup.
    destruct (update_keeps_entries _ _ _ _ _ _ _ _ _ _ Hd Hup) as (d' & Hd' & Hq & Hm & _).
    exists d'. rewrite Hq, Hm. done.
  - intros import_file category s'. unfold import_category.
    destruct (fs s !! import_file) as [[j| |]|].
    + unfold alloc, mbind, Op_bind, ensure_loaded. cbn [qa_data set_heap]. rewrite Hd.
      intros Hall.
      eapply import_all_ok in Hall as (d' & Hd' & Hq & Ht' & _); [|exact Hd].
      exists d'. split; [done|]. rewrite Ht', Hq, length_app. lia.
    + unfold mbind, Op_bind, ensure_loaded, lift. rewrite Hd. done.
    + done.
    + intros [= <-]. by exists d.
Qed.
(** ** [update_qa_pair] *)

Lemma set_if_given_other field o (e : QAPair) k :
  field <> k -> set_if_given field o e !! k = e !! k.
Proof.
  intros Hk. unfold set_if_given. destruct o as [v|]; [|done].
  destruct (PyStr.truthy v); [|done]. by rewrite lookup_insert_ne.
Qed.

Lemma updated_entry_question na nc ncat nconf now (e : QAPair) :
  updated_entry na nc ncat nconf now e !! "question" = e !! "question".
Proof.
  unfold updated_entry. rewrite lookup_insert_ne by done.
  by rewrite !set_if_given_other.
Qed.

(** X11: a successful update changes one entry object in place: the
    first entry of [qa_pairs] whose normalized question matches (every
    entry before it has another one) gets the given non-empty fields and
    an [updated_date]; every other object, the [qa_pairs] list and the
    metadata are untouched. *)
Theorem update_changes_one_object {LC : PyStr.Lowercase} s d question new_answer
    new_context new_category new_confidence now r s' :
  qa_data s = Some d ->
  update_qa_pair question new_answer new_context new_category new_confidence now s
  = (Ok (Some r), s') ->
  exists i q d',
    qa_pairs d !! i = Some r
    /\ deref (heap s) r !! "question" = Some q
    /\ normalize q = normalize question
    /\ Forall (fun r' => exists q', deref (heap s) r' !! "question" = Some q'
                                     /\ normalize q' <> normalize question)
         (take i (qa_pairs d))
    /\ deref (heap s') r
       = updated_entry new_answer new_context new_category new_confidence now
           (deref (heap s) r)
    /\ (forall r', r' <> r -> deref (heap s') r' = deref (heap s) r')
    /\ qa_data s' = Some d'
    /\ qa_pairs d' = qa_pairs d
    /\ metadata d' = metadata d.
Proof.
  intros Hd. unfold update_qa_pair. unfold_op.
  rewrite Hd; cbn beta iota; rewrite Hd; cbn beta iota.
  destruct (find_question (heap s) (qa_pairs d) (normalize question) 0)
    as [[[i r0]|]|] eqn:Hf; [|done..].
  apply find_question_found in Hf as (q & _ & Hi & Hq & Hn & Hall).
  rewrite Nat.sub_0_r in Hi, Hall.
  pose proof (deref_valid _ _ _ _ Hq) as Hr.
  cbn beta iota. case_on getitem; [|done]. case_on getitem; [|done].
  fold (updated_entry new_answer new_context new_category new_confidence now
          (deref (heap s) r0)).
  pose proof (deref_insert_eq (heap s) r0
    (updated_entry new_answer new_context new_category new_confidence now
       (deref (heap s) r0)) Hr) as H1.
  assert (forall r', r' <> r0 ->
    deref (<[r0 := updated_entry new_answer new_context new_category
                     new_confidence now (deref (heap s) r0)]> (heap s)) r'
    = deref (heap s) r') as H2.
  { intros r' Hne. by apply deref_insert_ne. }
  destruct new_category as [c|].
  - match goal with |- context [PyStr.truthy c && ?x] =>
      destruct (PyStr.truthy c && x) end.
    + match goal with |- context [remove_from_bucket ?c ?r ?s0] =>
        destruct (remove_from_bucket c r s0) as [[[]|?] s1] eqn:Hrm end; [|done].
      eapply remove_from_bucket_ok in Hrm as (b & kept & _ & ->); [|exact Hd].
      cbn. intros [= <- <-].
      exists i, q. eexists. cbn. eauto 12.
    + intros [= <- <-].
      exists i, q, d. cbn. eauto 12.
  - intros [= <- <-].
    exists i, q, d. cbn. eauto 12.
Qed.
Lemma remove_from_bucket_spec cat r s s' d :
  qa_data s = Some d -> remove_from_bucket cat r s = (Ok tt, s') ->
  exists bucket q,
    dict_get (categories d) cat = Some bucket
    /\ deref (heap s) r !! "question" = Some q
    /\ s' = set_qa_data
              (Some (set_categories
                       (dict_set (categories d) cat
                          (filter (fun r' => deref (heap s) r' !! "question" <> Some q)
                             bucket)) d)) s.
Proof.
  intros Hd. unfold remove_from_bucket, dict_getitem. unfold_op. rewrite Hd.
  destruct (dict_get (categories d) cat) as [bucket|]; [|done].
  unfold getitem. destruct (deref (heap s) r !! "question") as [q|]; [|done].
  destruct (filter_other_questions (heap s) bucket q) as [kept|] eqn:Hk; [|done].
  apply filter_other_questions_spec in Hk as ->.
  intros [= <-]. eauto.
Qed.

(** X12: an update with a non-empty new category that differs from the
    entry's old one removes from the old bucket every member with the
    entry's question, appends the entry to the new bucket (created when
    absent) and sets the entry's ['category']. *)
Theorem update_moves_between_buckets {LC : PyStr.Lowercase} s d question new_answer new_context c
    new_confidence now r s' old :
  qa_data s = Some d ->
  PyStr.truthy c = true ->
  update_qa_pair question new_answer new_context (Some c) new_confidence now s
  = (Ok (Some r), s') ->
  deref (heap s) r !! "category" = Some old ->
  old <> c ->
  exists d' q bucket,
    qa_data s' = Some d'
    /\ deref (heap s) r !! "question" = Some q
    /\ dict_get (categories d) old = Some bucket
    /\ dict_get (categories d') old
       = Some (filter (fun r' => deref (heap s') r' !! "question" <> Some q) bucket)
    /\ dict_get (categories d') c
       = Some (default [] (dict_get (categories d) c) ++ [r])
    /\ deref (heap s') r !! "category" = Some c.
Proof.
  intros Hd Hc. unfold update_qa_pair. unfold_op.
  rewrite Hd; cbn beta iota; rewrite Hd; cbn beta iota.
  destruct (find_question (heap s) (qa_pairs d) (normalize question) 0)
    as [[[i r0]|]|] eqn:Hf; [|done..].
  apply find_question_found in Hf as (q & _ & Hi & Hq & Hn & Hall).
  pose proof (deref_valid _ _ _ _ Hq) as Hr.
  cbn beta iota. case_on getitem; [|done].
  unfold getitem at 1.
  destruct (deref (heap s) r0 !! "category") as [old0|] eqn:Hold; [|done].
  fold (updated_entry new_answer new_context (Some c) new_confidence now
          (deref (heap s) r0)).
  rewrite Hc. cbn [andb].
  destruct (bool_decide (c = old0)) eqn:Hdec; cbn [negb].
  - apply bool_decide_eq_true in Hdec as ->.
    intros [= <- <-] Hold'. rewrite Hold in Hold'. by injection Hold' as <-.
  - match goal with |- context [remove_from_bucket ?c ?r ?s0] =>
      destruct (remove_from_bucket c r s0) as [[[]|?] s1] eqn:Hrm end; [|done].
    eapply remove_from_bucket_spec in Hrm as (b & q' & Hb & Hq' & ->); [|exact Hd].
    cbn in Hq'. rewrite deref_insert_eq, updated_entry_question, Hq in Hq' by done.
    injection Hq' as <-.
    cbn [qa_data set_qa_data categories set_categories heap set_heap].
    intros [= <- <-] Hold'. rewrite Hold in Hold'. injection Hold' as <-.
    intros Hne. eexists _, q, b. unfold set_categories.
    cbn [qa_data set_qa_data categories heap set_heap].
    split; [reflexivity|]. split; [done|]. split; [done|].
    cbn [categories]. split; [|split].
    + rewrite bucket_append_get_ne by done. by rewrite dict_get_set_eq.
    + rewrite bucket_append_get. by rewrite dict_get_set_ne.
    + rewrite deref_insert_eq by done. unfold updated_entry.
      rewrite lookup_insert_ne by done. rewrite set_if_given_other by done.
      unfold set_if_given at 1. rewrite Hc. by rewrite lookup_insert_eq.
Qed.
(** ** [search_qa_pairs] *)

Lemma prefix_refl s : String.prefix s s = true.
Proof. induction s as [|a s IH]; simpl; [done|]. by destruct (ascii_dec a a). Qed.

Lemma contains_refl s : PyStr.contains s s = true.
Proof.
  destruct s as [|a s]; [done|].
  change (String.prefix (String a s) (String a s)
          || PyStr.contains (String a s) s = true).
  by rewrite prefix_refl.
Qed.

Lemma search_match_hit {LC : PyStr.Lowercase} query category e :
  searchable e ->
  search_match (PyStr.lower query) category e = Ok (search_hit query category e).
Proof.
  intros ([q Hq] & [a Ha] & [c Hc]). unfold search_match, search_hit, getitem.
  rewrite Hq, Ha, Hc. simpl.
  destruct category as [c'|]; simpl.
  - destruct (PyStr.truthy c'); simpl.
    + destruct (decide (c = c')) as [->|Hne].
      * rewrite !bool_decide_eq_true_2 by done. simpl. by case_match.
      * rewrite !bool_decide_eq_false_2 by congruence. done.
    + by case_match.
  - by case_match.
Qed.

Lemma search_match_empty {LC : PyStr.Lowercase} ql category : search_match ql category ∅ = Ok true -> False.
Proof.
  unfold search_match, getitem. rewrite !lookup_empty.
  destruct (given category); done.
Qed.

Lemma search_match_valid {LC : PyStr.Lowercase} h ql category r hit :
  search_match ql category (deref h r) = Ok hit -> r < length h.
Proof.
  unfold deref. destruct (h !! r) as [e|] eqn:E; simpl.
  - intros _. by eapply lookup_lt_Some.
  - unfold search_match, getitem. rewrite !lookup_empty.
    destruct (given category); done.
Qed.

(** X13: when every entry has a question, an answer and a category,
    [search_qa_pairs] returns, in the order of [qa_pairs], the entries
    whose lower-cased question or answer contains the lower-cased query
    and, when a non-empty category is given, whose category is that one;
    the manager is left unchanged. *)
Theorem search_selects_matches {LC : PyStr.Lowercase} s d query category :
  qa_data s = Some d ->
  Forall (fun r => searchable (deref (heap s) r)) (qa_pairs d) ->
  search_qa_pairs query category s
  = (Ok (List.filter (fun r => search_hit query category (deref (heap s) r))
           (qa_pairs d)), s).
Proof.
  intros Hd Hall. unfold search_qa_pairs. unfold_op. rewrite Hd; cbn beta iota.
  rewrite Hd. f_equal. f_equal.
  induction Hall as [|r refs Hr _ IH]; [done|].
  simpl. rewrite search_match_hit by done. rewrite IH. done.
Qed.

Lemma search_entries_snoc {LC : PyStr.Lowercase} h e ql category : forall refs results hit,
  search_entries h ql category refs = Ok results ->
  search_match ql category e = Ok hit ->
  search_entries (h ++ [e]) ql category (refs ++ [length h])
  = Ok (results ++ if hit then [length h] else []).
Proof.
  assert (deref (h ++ [e]) (length h) = e) as Hnew.
  { unfold deref. by rewrite list_lookup_middle. }
  induction refs as [|r refs IH]; intros results hit; simpl.
  - intros [= <-] He. rewrite Hnew, He. by destruct hit.
  - destruct (search_match ql category (deref h r)) as [b|] eqn:Hb; [|done].
    apply search_match_valid in Hb as Hr.
    assert (deref (h ++ [e]) r = deref h r) as ->.
    { unfold deref. by rewrite lookup_app_l. }
    rewrite Hb.
    destruct (search_entries h ql category refs) as [rest|] eqn:Hrest; [|done].
    intros [= <-] He. rewrite (IH rest hit) by done. by destruct b.
Qed.

(** X14: after [add_qa_pair], a search that succeeded before the add
    returns its former results followed by the new entry, whenever the
    lower-cased query occurs in the new question or answer and the
    category filter, if any, is the new entry's category. *)
Theorem added_entry_is_found {LC : PyStr.Lowercase} s d query category results question answer context
    cat source confidence now r s' :
  qa_data s = Some d ->
  search_qa_pairs query category s = (Ok results, s) ->
  add_qa_pair question answer context cat source confidence now s = (Ok r, s') ->
  PyStr.contains (PyStr.lower query) (PyStr.lower question) = true
  \/ PyStr.contains (PyStr.lower query) (PyStr.lower answer) = true ->
  given category = false \/ category = Some cat ->
  search_qa_pairs query category s' = (Ok (results ++ [r]), s').
Proof.
  intros Hd. unfold search_qa_pairs, add_qa_pair. unfold_op.
  rewrite Hd; cbn beta iota. cbn [qa_data set_heap heap]. rewrite Hd.
  destruct (search_entries (heap s) (PyStr.lower query) category (qa_pairs d))
    as [found|] eqn:Hs; [|done].
  intros [= <-] [= <- <-] Hq Hc. cbn [qa_data set_qa_data set_heap heap qa_pairs].
  erewrite search_entries_snoc with (hit := true); [done|exact Hs|].
  assert (new_qa_pair question answer context cat source confidence now
          !! "question" = Some question) as Eq by reflexivity.
  assert (new_qa_pair question answer context cat source confidence now
          !! "answer" = Some answer) as Ea by reflexivity.
  assert (new_qa_pair question answer context cat source confidence now
          !! "category" = Some cat) as Ec by reflexivity.
  rewrite search_match_hit by (unfold searchable; rewrite Eq, Ea, Ec; eauto).
  f_equal. unfold search_hit. rewrite Eq, Ea, Ec. cbn [default from_option id].
  apply andb_true_intro. split.
  - destruct Hc as [->| ->]; [done|]. rewrite bool_decide_eq_true_2 by done.
    apply orb_true_r.
  - destruct Hq as [->| ->]; [done|]. apply orb_true_r.
Qed.
(** ** [generate_report] *)

Lemma dict_total_set counts k v :
  dict_total (dict_set counts k v) + default 0 (dict_get counts k)
  = dict_total counts + v.
Proof.
  unfold dict_total. induction counts as [|[k' v'] counts IH]; simpl; [lia|].
  destruct (decide (k' = k)) as [->|Hne]; simpl; lia.
Qed.

Lemma count_one_total counts k : dict_total (count_one counts k) = dict_total counts + 1.
Proof.
  unfold count_one.
  pose proof (dict_total_set counts k (default 0 (dict_get counts k) + 1)). lia.
Qed.

Lemma count_sources_total h : forall refs counts counts',
  count_sources h counts refs = Ok counts' ->
  dict_total counts' = dict_total counts + length refs.
Proof.
  induction refs as [|r refs IH]; intros counts counts'; simpl.
  - intros [= <-]. lia.
  - destruct (getitem (deref h r) "source") as [source|]; [|done].
    intros H. apply IH in H. rewrite count_one_total in H. lia.
Qed.

Lemma count_confidences_total h refs :
  dict_total (count_confidences h refs) = length refs.
Proof.
  unfold count_confidences.
  assert (forall counts,
    dict_total (foldl (fun counts r =>
                  count_one counts (default "unknown" (deref h r !! "confidence")))
                counts refs)
    = dict_total counts + length refs) as H.
  { induction refs as [|r refs IH]; intros counts; simpl; [lia|].
    rewrite IH, count_one_total. lia. }
  rewrite H. done.
Qed.

Lemma dict_set_absent {V} (counts : list (string * V)) k v :
  k ∉ dict_keys counts -> dict_set counts k v = counts ++ [(k, v)].
Proof.
  unfold dict_keys. induction counts as [|[k' v'] counts IH]; simpl; [done|].
  intros Hk. apply not_elem_of_cons in Hk as [Hne Hk].
  rewrite decide_False by done. by rewrite IH.
Qed.

Lemma count_categories_nodup cats :
  NoDup (dict_keys cats) ->
  count_categories cats = map (fun b => (fst b, length (snd b))) cats.
Proof.
  unfold count_categories.
  assert (forall acc : list (string * nat),
    NoDup (dict_keys acc ++ dict_keys cats) ->
    foldl (fun counts b => dict_set counts (fst b) (length (snd b))) acc cats
    = acc ++ map (fun b => (fst b, length (snd b))) cats) as H.
  { induction cats as [|[k b] cats IH]; intros acc Hnd; simpl.
    - by rewrite app_nil_r.
    - simpl in Hnd. apply NoDup_app in Hnd as Hparts.
      destruct Hparts as (Hacc & Hdisj & Hcats).
      rewrite dict_set_absent.
      + rewrite IH.
        * by rewrite <- app_assoc.
        * unfold dict_keys in *. rewrite map_app. simpl.
          rewrite <- app_assoc. done.
      + intros Hin. apply (Hdisj k Hin). apply elem_of_cons. by left. }
  intros Hnd. by rewrite H.
Qed.

(** X15: a report counts every entry once in [source_breakdown] and
    once in [confidence_breakdown] (the counts of each add up to the
    number of entries), lists the size of every bucket in
    [category_breakdown] in the order of [categories], and leaves the
    manager unchanged. *)
Theorem report_counts_every_entry {LC : PyStr.Lowercase} s d now rep s' :
  qa_data s = Some d ->
  generate_report now s = (Ok rep, s') ->
  s' = s
  /\ dict_total (source_breakdown rep) = length (qa_pairs d)
  /\ dict_total (confidence_breakdown rep) = length (qa_pairs d)
  /\ (NoDup (dict_keys (categories d)) ->
      category_breakdown rep
      = map (fun b => (fst b, length (snd b))) (categories d)).
Proof.
  intros Hd. unfold generate_report. unfold_op.
  rewrite Hd; cbn beta iota; rewrite Hd; cbn beta iota.
  pose proof (validate_frame s d Hd) as Hframe.
  destruct (validate_qa_pairs s) as [[issues|e] s1]; simpl in Hframe; subst s1;
    cbn beta iota; [|done].
  rewrite Hd; cbn beta iota.
  destruct (count_sources (heap s) [] (qa_pairs d)) as [by_source|] eqn:Hsrc; [|done].
  intros [= <- <-]. cbn [source_breakdown confidence_breakdown category_breakdown].
  split; [done|]. split; [|split].
  - apply count_sources_total in Hsrc. done.
  - apply count_confidences_total.
  - apply count_categories_nodup.
Qed.
(** ** [validate_qa_pairs] *)

Lemma validate_entries_spec {LC : PyStr.Lowercase} h : forall refs iss seen iss' seen',
  validate_entries h (iss, seen) refs = Ok (iss', seen') ->
  (exists new,
     duplicate_questions iss' = duplicate_questions iss ++ new
     /\ (NoDup seen -> new = [] <-> NoDup (seen ++ map (question_key h) refs)))
  /\ low_confidence iss' = low_confidence iss ++ List.filter (is_low h) refs
  /\ empty_answers iss' = empty_answers iss ++ List.filter (answer_blank h) refs
  /\ missing_fields iss' = missing_fields iss ++ flat_map (missing_of h) refs.
Proof.
  induction refs as [|r refs IH]; intros iss seen iss' seen'.
  - simpl. intros [= <- <-]. rewrite !app_nil_r. split; [|done].
    exists []. rewrite app_nil_r. done.
  - cbn [validate_entries]. unfold validate_entry, getitem.
    destruct (deref h r !! "question") as [q|] eqn:Hq; [|done].
    cbn beta iota. intros H.
    apply IH in H as ((new & Hdup & Hnd) & Hlow & Hempty & Hmiss).
    cbn [duplicate_questions low_confidence empty_answers missing_fields] in *.
    assert (question_key h r = normalize q) as Hkey.
    { unfold question_key. by rewrite Hq. }
    split; [|split; [|split]].
    + destruct (bool_decide (normalize q ∈ seen)) eqn:Hin.
      * apply bool_decide_eq_true in Hin.
        exists (r :: new). split.
        { rewrite Hdup, <- app_assoc. done. }
        intros _. split; [done|]. simpl. rewrite Hkey. intros Hbad.
        apply NoDup_app in Hbad as (_ & Hdisj & _).
        exfalso. apply (Hdisj _ Hin). apply elem_of_cons. by left.
      * apply bool_decide_eq_false in Hin.
        exists new. split; [done|]. intros Hseen. simpl. rewrite Hkey.
        rewrite Hnd.
        { rewrite <- app_assoc. done. }
        apply NoDup_app. split; [done|]. split; [|apply NoDup_singleton].
        intros x Hx Hx'. apply list_elem_of_singleton in Hx' as ->. done.
    + rewrite Hlow. simpl. unfold is_low at 2.
      destruct (bool_decide (deref h r !! "confidence" = Some "low"));
        by rewrite <- ?app_assoc.
    + rewrite Hempty. simpl. unfold answer_blank at 2.
      destruct (PyStr.truthy _); simpl; by rewrite <- ?app_assoc.
    + rewrite Hmiss. simpl. rewrite <- app_assoc. done.
Qed.

(** X16: a validation that returns reports no duplicate question
    exactly when the normalized questions of [qa_pairs] are pairwise
    distinct. *)
Theorem duplicates_reported_iff_keys_repeat {LC : PyStr.Lowercase} s d issues s' :
  qa_data s = Some d ->
  validate_qa_pairs s = (Ok issues, s') ->
  duplicate_questions issues = []
  <-> NoDup (map (question_key (heap s)) (qa_pairs d)).
Proof.
  intros Hd. unfold validate_qa_pairs. unfold_op.
  rewrite Hd; cbn beta iota; rewrite Hd; cbn beta iota.
  destruct (validate_entries (heap s) (no_issues, []) (qa_pairs d))
    as [[iss seen]|] eqn:Hv; [|done].
  intros [= <- <-]. cbn [duplicate_questions fst].
  apply validate_entries_spec in Hv as ((new & -> & Hnd) & _).
  simpl. apply Hnd. constructor.
Qed.

(** X17: a validation that returns lists under [low_confidence] the
    entries whose confidence is ['low'], under [empty_answers] those
    whose answer is absent or blank once stripped, and under
    [missing_fields] one record per entry and required field that is
    absent or empty, each in the order of [qa_pairs]. *)
Theorem validate_lists_entries_in_order {LC : PyStr.Lowercase} s d issues s' :
  qa_data s = Some d ->
  validate_qa_pairs s = (Ok issues, s') ->
  low_confidence issues = List.filter (is_low (heap s)) (qa_pairs d)
  /\ empty_answers issues = List.filter (answer_blank (heap s)) (qa_pairs d)
  /\ missing_fields issues = flat_map (missing_of (heap s)) (qa_pairs d).
Proof.
  intros Hd. unfold validate_qa_pairs. unfold_op.
  rewrite Hd; cbn beta iota; rewrite Hd; cbn beta iota.
  destruct (validate_entries (heap s) (no_issues, []) (qa_pairs d))
    as [[iss seen]|] eqn:Hv; [|done].
  intros [= <- <-].
  cbn [low_confidence empty_answers missing_fields fst].
  apply validate_entries_spec in Hv as (_ & -> & -> & ->).
  done.
Qed.
(** ** [save_qa_data] and the operator commands *)

(** X18: when the output file does not exist, [save_qa_data] reads
    nothing and writes no backup: unless the write of the output file
    itself fails it succeeds, and the only file it changes is the output
    file, which then holds the serialized knowledge base. *)
Theorem first_save_writes_one_file s output_file timestamp fault :
  fs s !! default (qa_data_file s) output_file = None ->
  fault <> PrimaryWriteFails ->
  save_qa_data output_file timestamp fault s
  = (Ok tt,
     set_fs (<[default (qa_data_file s) output_file := serialized s]> (fs s)) s).
Proof.
  intros Hf Hfault. unfold save_qa_data, backup_step, write_step. unfold_op.
  rewrite Hf. by destruct fault.
Qed.

Lemma save_ok_writes_serialized timestamp s s' :
  save_qa_data None timestamp NoFault s = (Ok tt, s') ->
  qa_data s' = qa_data s /\ heap s' = heap s /\ qa_data_file s' = qa_data_file s
  /\ fs s' !! qa_data_file s = Some (serialized s).
Proof.
  unfold save_qa_data, backup_step, write_step. unfold_op. cbn [default].
  destruct (fs s !! qa_data_file s) as [[j| |]|]; [| |done|];
    intros [= <-]; cbn; by rewrite lookup_insert_eq.
Qed.

Lemma input_or_truthy line default_value :
  PyStr.truthy default_value = true ->
  PyStr.truthy (input_or line default_value) = true.
Proof.
  intros Hd. unfold input_or.
  by destruct (PyStr.truthy (PyStr.strip line)) eqn:E.
Qed.

Lemma truthy_false s : PyStr.truthy s = false <-> s = EmptyString.
Proof. by destruct s. Qed.

(** [add_qa_pair] on a manager that [ensure_loaded] brings to [s0]. *)
Lemma add_after_load s s0 d question answer context category source confidence now :
  ensure_loaded s = (Ok tt, s0) -> qa_data s0 = Some d ->
  add_qa_pair question answer context category source confidence now s
  = add_qa_pair question answer context category source confidence now s0.
Proof.
  intros Hl Hd. unfold add_qa_pair, mbind, Op_bind. rewrite Hl.
  unfold ensure_loaded. rewrite Hd. done.
Qed.

(** X19: [interactive_add] adds nothing unless the four inputs question,
    answer, context and category are non-blank. When one of them is
    blank once stripped, the call returns at once: nothing is loaded,
    added or written, whatever the file system would do. When none is,
    on a manager that has or can load a knowledge base whose file is
    not corrupt, the call appends one entry made of the stripped inputs
    (source and confidence defaulting to ['Manual'] and ['high']), whose
    five required fields are all non-empty, and saves the data file,
    which then holds the serialized knowledge base. *)
Theorem interactive_add_entry_is_complete s in_question in_answer in_context
    in_category in_source in_confidence now timestamp :
  (PyStr.strip in_question = EmptyString \/ PyStr.strip in_answer = EmptyString
   \/ PyStr.strip in_context = EmptyString \/ PyStr.strip in_category = EmptyString ->
   forall fault,
     interactive_add in_question in_answer in_context in_category in_source
       in_confidence now timestamp fault s = (Ok tt, s))
  /\ (PyStr.strip in_question <> EmptyString ->
      PyStr.strip in_answer <> EmptyString ->
      PyStr.strip in_context <> EmptyString ->
      PyStr.strip in_category <> EmptyString ->
      forall s0 d,
        ensure_loaded s = (Ok tt, s0) ->
        qa_data s0 = Some d ->
        fs s0 !! qa_data_file s0 <> Some NotJson ->
        exists s' d',
          interactive_add in_question in_answer in_context in_category in_source
            in_confidence now timestamp NoFault s = (Ok tt, s')
          /\ qa_data s' = Some d'
          /\ qa_pairs d' = qa_pairs d ++ [length (heap s0)]
          /\ heap s'
             = heap s0 ++ [new_qa_pair (PyStr.strip in_question)
                             (PyStr.strip in_answer) (PyStr.strip in_context)
                             (PyStr.strip in_category)
                             (input_or in_source "Manual")
                             (input_or in_confidence "high") now]
          /\ Forall (fun field =>
                       field_missing (deref (heap s') (length (heap s0))) field
                       = false) required_fields
          /\ fs s' !! qa_data_file s' = Some (serialized s')).
Proof.
  split.
  - intros Hblank fault. unfold interactive_add.
    rewrite <- !truthy_false in Hblank.
    destruct Hblank as [->|[->|[->|Hcat]]]; rewrite ?andb_false_r; try done.
    rewrite Hcat. by rewrite ?andb_false_r.
  - intros Hq Ha Hc Hcat s0 d Hl Hd Hfile. unfold interactive_add.
    rewrite <- truthy_false in Hq, Ha, Hc, Hcat.
    apply not_false_is_true in Hq, Ha, Hc, Hcat.
    rewrite Hq, Ha, Hc, Hcat. cbn [andb].
    unfold mbind at 1. unfold Op_bind at 1.
    rewrite (add_after_load s s0 d) by done.
    unfold add_qa_pair. unfold_op.
    rewrite Hd; cbn beta iota. cbn [qa_data set_heap heap]. rewrite Hd.
    cbn beta iota.
    match goal with |- context [save_qa_data None timestamp NoFault ?s1] =>
      destruct (save_qa_data None timestamp NoFault s1) as [[[]|e] s'] eqn:Hsave
    end.
    + apply save_ok_writes_serialized in Hsave as (Hdata & Hheap & Hf & Hfs).
      cbn [qa_data set_qa_data set_heap heap qa_data_file] in *.
      eexists s', _. split; [reflexivity|]. split; [exact Hdata|].
      cbn [qa_pairs]. split; [done|]. split; [exact Hheap|].
      rewrite Hheap. unfold deref. rewrite list_lookup_middle by done.
      cbn [default from_option id]. split.
      * pose proof (input_or_truthy in_source "Manual" eq_refl) as Hsrc.
        unfold required_fields, field_missing.
        repeat constructor.
        -- change (negb (PyStr.truthy (PyStr.strip in_question)) = false).
           by rewrite Hq.
        -- change (negb (PyStr.truthy (PyStr.strip in_answer)) = false).
           by rewrite Ha.
        -- change (negb (PyStr.truthy (PyStr.strip in_context)) = false).
           by rewrite Hc.
        -- change (negb (PyStr.truthy (PyStr.strip in_category)) = false).
           by rewrite Hcat.
        -- change (negb (PyStr.truthy (input_or in_source "Manual")) = false).
           by rewrite Hsrc.
      * rewrite Hf, Hfs. unfold serialized. rewrite Hdata, Hheap. done.
    + exfalso. revert Hsave.
      unfold save_qa_data, backup_step, write_step. unfold_op.
      cbn [default qa_data_file set_qa_data set_heap fs].
      destruct (fs s0 !! qa_data_file s0) as [[j| |]|]; done.
Qed.



(** ** [add_qa_pair] followed by [delete_qa_pair] *)

Lemma find_question_snoc {LC : PyStr.Lowercase} h e question : forall refs i,
  e !! "question" = Some question ->
  Forall (fun r => exists q, deref h r !! "question" = Some q
                             /\ normalize q <> normalize question) refs ->
  find_question (h ++ [e]) (refs ++ [length h]) (normalize question) i
  = Ok (Some (i + length refs, length h)).
Proof.
  intros refs i He Hall. revert i.
  induction Hall as [|r refs (q & Hq & Hn) _ IH]; intros i; simpl.
  - unfold getitem, deref. rewrite list_lookup_middle by done. simpl.
    rewrite He. rewrite decide_True by done. do 3 f_equal. lia.
  - apply deref_valid in Hq as Hr.
    assert (deref (h ++ [e]) r = deref h r) as ->.
    { unfold deref. by rewrite lookup_app_l. }
    unfold getitem. rewrite Hq. rewrite decide_False by done.
    rewrite IH. do 3 f_equal. lia.
Qed.

Lemma filter_other_questions_total h bucket q :
  Forall (fun r => is_Some (deref h r !! "question")) bucket ->
  filter_other_questions h bucket q
  = Ok (filter (fun r => deref h r !! "question" <> Some q) bucket).
Proof.
  intros Hall.
  destruct (filter_other_questions h bucket q) as [kept|e] eqn:Hk.
  - by apply filter_other_questions_spec in Hk as ->.
  - exfalso. induction Hall as [|r bucket [q0 Hq0] _ IH]; simpl in Hk; [done|].
    unfold getitem in Hk. rewrite Hq0 in Hk.
    destruct (filter_other_questions h bucket q); [done|]. by apply IH.
Qed.

(** X21: a question that is new to the knowledge base can be deleted
    right after it was added: the delete returns [True], [qa_pairs] and
    [total_qa_pairs] are as before the add, and the category's bucket
    lost the new entry; the category added to the metadata stays. *)
Theorem delete_undoes_add {LC : PyStr.Lowercase} s d question answer context category source confidence
    now r s1 :
  qa_data s = Some d ->
  Forall (fun r' => exists q, deref (heap s) r' !! "question" = Some q
                              /\ normalize q <> normalize question) (qa_pairs d) ->
  Forall (fun r' => is_Some (deref (heap s) r' !! "question"))
    (default [] (dict_get (categories d) category)) ->
  add_qa_pair question answer context category source confidence now s = (Ok r, s1) ->
  exists s2 d2,
    delete_qa_pair question s1 = (Ok true, s2)
    /\ qa_data s2 = Some d2
    /\ qa_pairs d2 = qa_pairs d
    /\ total_qa_pairs (metadata d2) = total_qa_pairs (metadata d)
    /\ dict_get (categories d2) category
       = Some (filter (fun r' => deref (heap s) r' !! "question" <> Some question)
                 (default [] (dict_get (categories d) category)))
    /\ meta_categories (metadata d2)
       = append_if_absent category (meta_categories (metadata d)).
Proof.
  intros Hd Hall Hbucket. unfold add_qa_pair. unfold_op.
  rewrite Hd; cbn beta iota. cbn [qa_data set_heap heap]. rewrite Hd.
  intros [= <- <-].
  set (e := new_qa_pair question answer context category source confidence now).
  assert (e !! "question" = Some question) as Eq by reflexivity.
  assert (e !! "category" = Some category) as Ec by reflexivity.
  assert (deref (heap s ++ [e]) (length (heap s)) = e) as Enew.
  { unfold deref. by rewrite list_lookup_middle. }
  unfold delete_qa_pair. unfold_op.
  cbn [qa_data set_qa_data set_heap heap qa_pairs].
  rewrite (find_question_snoc _ _ question _ 0 Eq Hall). cbn beta iota.
  rewrite Enew. unfold getitem at 1. rewrite Ec. cbn beta iota.
  unfold remove_from_bucket, dict_getitem. unfold_op.
  cbn [qa_data set_qa_data set_heap heap qa_pairs categories metadata].
  rewrite bucket_append_get.
  rewrite Enew. unfold getitem. rewrite Eq.
  set (bucket := default [] (dict_get (categories d) category)) in *.
  assert (Forall (fun r' => deref (heap s ++ [e]) r' = deref (heap s) r') bucket)
    as Hsame.
  { eapply Forall_impl; [exact Hbucket|]. intros r' [q Hq]. cbn beta in *.
    apply deref_valid in Hq. unfold deref. by rewrite lookup_app_l. }
  rewrite filter_other_questions_total.
  2:{ apply Forall_app. split.
      - eapply Forall_impl; [exact Hbucket|]. intros r' [q Hq]. cbn beta.
        apply deref_valid in Hq as Hv.
        assert (deref (heap s ++ [e]) r' = deref (heap s) r') as ->.
        { unfold deref. by rewrite lookup_app_l. }
        eauto.
      - repeat constructor. rewrite Enew, Eq. eauto. }
  eexists _, _. split; [reflexivity|].
  cbn [qa_data set_qa_data qa_pairs metadata categories set_categories
       total_qa_pairs set_total set_meta_sources set_meta_categories meta_categories].
  split; [reflexivity|]. unfold set_categories.
  cbn [qa_pairs metadata categories total_qa_pairs set_total set_meta_sources
       set_meta_categories meta_categories].
  split; [|split; [lia|split; [|done]]].
  - rewrite ?Nat.add_0_l. rewrite delete_middle. by rewrite app_nil_r.
  - rewrite dict_get_set_eq. f_equal. rewrite filter_app.
    rewrite filter_cons, filter_nil. rewrite Enew, Eq.
    rewrite decide_False by (intros H; by apply H). rewrite app_nil_r.
    clear -Hsame. induction Hsame as [|r' bucket Hr' _ IH]; [done|].
    rewrite !filter_cons, IH, Hr'. done.
Qed.
(** ** The theorems on the sample stores *)

Lemma roth_store_lacks_401k :
  Forall (fun r => exists q, deref (heap roth_store) r !! "question" = Some q
                             /\ normalize q <> normalize "What is a 401k?")
    (qa_pairs roth_data).
Proof.
  repeat constructor. exists "What is a Roth IRA?".
  split; [reflexivity|]. vm_compute. discriminate.
Defined.

Lemma absent_question_changes_nothing_witness :
  qa_data roth_store = Some roth_data
  /\ Forall (fun r => exists q, deref (heap roth_store) r !! "question" = Some q
                                /\ normalize q <> normalize "What is a 401k?")
       (qa_pairs roth_data)
  /\ delete_qa_pair "What is a 401k?" roth_store = (Ok false, roth_store)
  /\ update_qa_pair "What is a 401k?" (Some "An employer plan.") None None None
       "2024-01-01T00:00:00" roth_store = (Ok None, roth_store).
Proof.
  split; [reflexivity|]. split; [exact roth_store_lacks_401k|].
  destruct (absent_question_changes_nothing roth_store roth_data "What is a 401k?"
              eq_refl roth_store_lacks_401k) as [Hdelete Hupdate].
  split; [exact Hdelete|apply Hupdate].
Defined.

Lemma missing_file_raises_type_error_witness :
  qa_data no_file_store = None
  /\ fs no_file_store !! qa_data_file no_file_store = None
  /\ load_qa_data no_file_store = (Ok None, no_file_store)
  /\ delete_qa_pair "What is a Roth IRA?" no_file_store
     = (Raise (TypeError "'NoneType' object is not subscriptable"), no_file_store)
  /\ validate_qa_pairs no_file_store
     = (Raise (TypeError "'NoneType' object is not subscriptable"), no_file_store).
Proof.
  split; [reflexivity|]. split; [reflexivity|].
  destruct (missing_file_raises_type_error no_file_store eq_refl eq_refl)
    as (Hload & _ & _ & Hdelete & Hvalidate & _).
  split; [exact Hload|]. split; [apply Hdelete|exact Hvalidate].
Defined.

Lemma total_counts_entries_witness :
  total_matches roth_store
  /\ total_matches (snd (delete_qa_pair "what is a roth ira?" roth_store)).
Proof.
  assert (total_matches roth_store) as Ht.
  { exists roth_data. split; reflexivity. }
  split; [exact Ht|].
  destruct (total_counts_entries roth_store Ht) as (_ & Hdelete & _).
  apply (Hdelete "what is a roth ira?" true). vm_compute. reflexivity.
Defined.

Lemma delete_removes_first_match_witness :
  qa_data roth_store = Some roth_data
  /\ exists s',
       delete_qa_pair " WHAT IS A ROTH IRA? " roth_store = (Ok true, s')
       /\ exists i r q category bucket,
            qa_pairs roth_data !! i = Some r
            /\ deref (heap roth_store) r !! "question" = Some q
            /\ normalize q = normalize " WHAT IS A ROTH IRA? "
            /\ Forall (fun r' => exists q',
                         deref (heap roth_store) r' !! "question" = Some q'
                         /\ normalize q' <> normalize " WHAT IS A ROTH IRA? ")
                 (take i (qa_pairs roth_data))
            /\ deref (heap roth_store) r !! "category" = Some category
            /\ dict_get (categories roth_data) category = Some bucket
            /\ s' = set_qa_data
                      (Some {| metadata :=
                                 set_total (total_qa_pairs (metadata roth_data) - 1)
                                   (metadata roth_data);
                               qa_pairs := delete i (qa_pairs roth_data);
                               categories :=
                                 dict_set (categories roth_data) category
                                   (filter (fun r' =>
                                              deref (heap roth_store) r' !! "question"
                                              <> Some q) bucket) |}) roth_store.
Proof.
  split; [reflexivity|].
  exists (snd (delete_qa_pair " WHAT IS A ROTH IRA? " roth_store)).
  assert (delete_qa_pair " WHAT IS A ROTH IRA? " roth_store
          = (Ok true, snd (delete_qa_pair " WHAT IS A ROTH IRA? " roth_store))) as Hrun
    by (vm_compute; reflexivity).
  split; [exact Hrun|].
  apply (delete_removes_first_match roth_store roth_data " WHAT IS A ROTH IRA? "
           _ eq_refl Hrun).
Defined.

Lemma update_changes_one_object_witness :
  qa_data roth_store = Some roth_data
  /\ exists s',
       update_qa_pair "what is a roth ira?" (Some "A new answer.") None None None
         "2024-02-02T00:00:00" roth_store = (Ok (Some 0), s')
       /\ exists i q d',
            qa_pairs roth_data !! i = Some 0
            /\ deref (heap roth_store) 0 !! "question" = Some q
            /\ normalize q = normalize "what is a roth ira?"
            /\ Forall (fun r' => exists q',
                         deref (heap roth_store) r' !! "question" = Some q'
                         /\ normalize q' <> normalize "what is a roth ira?")
                 (take i (qa_pairs roth_data))
            /\ deref (heap s') 0
               = updated_entry (Some "A new answer.") None None None
                   "2024-02-02T00:00:00" (deref (heap roth_store) 0)
            /\ (forall r', r' <> 0 -> deref (heap s') r' = deref (heap roth_store) r')
            /\ qa_data s' = Some d'
            /\ qa_pairs d' = qa_pairs roth_data
            /\ metadata d' = metadata roth_data.
Proof.
  split; [reflexivity|].
  exists (snd (update_qa_pair "what is a roth ira?" (Some "A new answer.") None None
                 None "2024-02-02T00:00:00" roth_store)).
  assert (update_qa_pair "what is a roth ira?" (Some "A new answer.") None None None
            "2024-02-02T00:00:00" roth_store
          = (Ok (Some 0),
             snd (update_qa_pair "what is a roth ira?" (Some "A new answer.") None
                    None None "2024-02-02T00:00:00" roth_store))) as Hrun
    by (vm_compute; reflexivity).
  split; [exact Hrun|].
  apply (update_changes_one_object roth_store roth_data "what is a roth ira?"
           (Some "A new answer.") None None None "2024-02-02T00:00:00" 0 _
           eq_refl Hrun).
Defined.

Lemma update_moves_between_buckets_witness :
  qa_data roth_store = Some roth_data
  /\ PyStr.truthy "b" = true
  /\ deref (heap roth_store) 0 !! "category" = Some "a"
  /\ "a" <> "b"
  /\ exists s',
       update_qa_pair "what is a roth ira?" None None (Some "b") None
         "2024-02-02T00:00:00" roth_store = (Ok (Some 0), s')
       /\ exists d' q bucket,
            qa_data s' = Some d'
            /\ deref (heap roth_store) 0 !! "question" = Some q
            /\ dict_get (categories roth_data) "a" = Some bucket
            /\ dict_get (categories d') "a"
               = Some (filter (fun r' => deref (heap s') r' !! "question" <> Some q)
                         bucket)
            /\ dict_get (categories d') "b"
               = Some (default [] (dict_get (categories roth_data) "b") ++ [0])
            /\ deref (heap s') 0 !! "category" = Some "b".
Proof.
  assert ("a" <> "b") as Hne by discriminate.
  split; [reflexivity|]. split; [reflexivity|]. split; [reflexivity|].
  split; [exact Hne|].
  exists (snd (update_qa_pair "what is a roth ira?" None None (Some "b") None
                 "2024-02-02T00:00:00" roth_store)).
  assert (update_qa_pair "what is a roth ira?" None None (Some "b") None
            "2024-02-02T00:00:00" roth_store
          = (Ok (Some 0),
             snd (update_qa_pair "what is a roth ira?" None None (Some "b") None
                    "2024-02-02T00:00:00" roth_store))) as Hrun
    by (vm_compute; reflexivity).
  split; [exact Hrun|].
  apply (update_moves_between_buckets roth_store roth_data "what is a roth ira?"
           None None "b" None "2024-02-02T00:00:00" 0 _ "a"
           eq_refl eq_refl Hrun eq_refl Hne).
Defined.

Lemma roth_store_searchable :
  Forall (fun r => searchable (deref (heap roth_store) r)) (qa_pairs roth_data).
Proof. repeat constructor; eexists; reflexivity. Defined.

Lemma search_selects_matches_witness :
  qa_data roth_store = Some roth_data
  /\ Forall (fun r => searchable (deref (heap roth_store) r)) (qa_pairs roth_data)
  /\ search_qa_pairs "ROTH" (Some "a") roth_store
     = (Ok (List.filter (fun r => search_hit "ROTH" (Some "a")
                                    (deref (heap roth_store) r))
              (qa_pairs roth_data)), roth_store).
Proof.
  split; [reflexivity|]. split; [exact roth_store_searchable|].
  apply (search_selects_matches roth_store roth_data "ROTH" (Some "a") eq_refl
           roth_store_searchable).
Defined.

Lemma added_entry_is_found_witness :
  qa_data roth_store = Some roth_data
  /\ search_qa_pairs "ira" None roth_store = (Ok [0], roth_store)
  /\ (PyStr.contains (PyStr.lower "ira") (PyStr.lower "What is a SEP IRA?") = true
      \/ PyStr.contains (PyStr.lower "ira") (PyStr.lower "A plan for the self-employed.")
         = true)
  /\ (given None = false \/ None = Some "b")
  /\ exists s',
       add_qa_pair "What is a SEP IRA?" "A plan for the self-employed."
         "SEP IRA basics" "b" "Manual" "high" "2024-01-01T00:00:00" roth_store
       = (Ok 1, s')
       /\ search_qa_pairs "ira" None s' = (Ok ([0] ++ [1]), s').
Proof.
  assert (search_qa_pairs "ira" None roth_store = (Ok [0], roth_store)) as Hsearch
    by (vm_compute; reflexivity).
  assert (PyStr.contains (PyStr.lower "ira") (PyStr.lower "What is a SEP IRA?") = true
          \/ PyStr.contains (PyStr.lower "ira")
               (PyStr.lower "A plan for the self-employed.") = true) as Hin
    by (left; vm_compute; reflexivity).
  assert (given None = false \/ None = Some "b") as Hcat by (left; reflexivity).
  split; [reflexivity|]. split; [exact Hsearch|]. split; [exact Hin|].
  split; [exact Hcat|].
  exists (snd (add_qa_pair "What is a SEP IRA?" "A plan for the self-employed."
                 "SEP IRA basics" "b" "Manual" "high" "2024-01-01T00:00:00"
                 roth_store)).
  assert (add_qa_pair "What is a SEP IRA?" "A plan for the self-employed."
            "SEP IRA basics" "b" "Manual" "high" "2024-01-01T00:00:00" roth_store
          = (Ok 1,
             snd (add_qa_pair "What is a SEP IRA?" "A plan for the self-employed."
                    "SEP IRA basics" "b" "Manual" "high" "2024-01-01T00:00:00"
                    roth_store))) as Hadd
    by (vm_compute; reflexivity).
  split; [exact Hadd|].
  apply (added_entry_is_found roth_store roth_data "ira" None [0]
           "What is a SEP IRA?" "A plan for the self-employed." "SEP IRA basics"
           "b" "Manual" "high" "2024-01-01T00:00:00" 1 _ eq_refl Hsearch Hadd
           Hin Hcat).
Defined.

Lemma report_counts_every_entry_witness :
  qa_data roth_store = Some roth_data
  /\ exists rep,
       generate_report "2024-01-01T00:00:00" roth_store = (Ok rep, roth_store)
       /\ dict_total (source_breakdown rep) = length (qa_pairs roth_data)
       /\ dict_total (confidence_breakdown rep) = length (qa_pairs roth_data).
Proof.
  split; [reflexivity|].
  exists (match fst (generate_report "2024-01-01T00:00:00" roth_store) with
          | Ok rep => rep
          | Raise _ =>
              {| summary := {| summary_total_qa_pairs := 0; summary_categories := 0;
                               summary_sources := 0; last_updated := EmptyString |};
                 category_breakdown := []; source_breakdown := [];
                 confidence_breakdown := []; validation_issues := no_issues |}
          end).
  assert (generate_report "2024-01-01T00:00:00" roth_store
          = (Ok (match fst (generate_report "2024-01-01T00:00:00" roth_store) with
                 | Ok rep => rep
                 | Raise _ =>
                     {| summary := {| summary_total_qa_pairs := 0;
                                      summary_categories := 0;
                                      summary_sources := 0;
                                      last_updated := EmptyString |};
                        category_breakdown := []; source_breakdown := [];
                        confidence_breakdown := []; validation_issues := no_issues |}
                 end), roth_store)) as Hrun
    by (vm_compute; reflexivity).
  split; [exact Hrun|].
  destruct (report_counts_every_entry roth_store roth_data "2024-01-01T00:00:00" _ _
              eq_refl Hrun) as (_ & Hsources & Hconfidences & _).
  split; [exact Hsources|exact Hconfidences].
Defined.

Lemma duplicates_reported_iff_keys_repeat_witness :
  qa_data repeated_store
  = Some {| metadata := set_total 2 roth_metadata; qa_pairs := [0; 1];
            categories := [("a", [0; 1])] |}
  /\ validate_qa_pairs repeated_store
     = (Ok {| missing_fields := []; duplicate_questions := [1];
              empty_answers := []; low_confidence := [];
              orphaned_categories := [] |}, repeated_store)
  /\ map (question_key (heap repeated_store)) [0; 1]
     = ["what is a roth ira?"; "what is a roth ira?"]
  /\ ([1] = [] <-> NoDup (map (question_key (heap repeated_store)) [0; 1])).
Proof.
  assert (validate_qa_pairs repeated_store
          = (Ok {| missing_fields := []; duplicate_questions := [1];
                   empty_answers := []; low_confidence := [];
                   orphaned_categories := [] |}, repeated_store)) as Hrun
    by (vm_compute; reflexivity).
  split; [reflexivity|]. split; [exact Hrun|].
  split; [vm_compute; reflexivity|].
  apply (duplicates_reported_iff_keys_repeat repeated_store _ _ _ eq_refl Hrun).
Defined.

Lemma validate_lists_entries_in_order_witness :
  qa_data hasty_store
  = Some {| metadata := set_total 2 roth_metadata; qa_pairs := [0; 1];
            categories := [("a", [0]); ("b", [1])] |}
  /\ validate_qa_pairs hasty_store
     = (Ok {| missing_fields := [(1, "context")]; duplicate_questions := [];
              empty_answers := [1]; low_confidence := [1];
              orphaned_categories := [] |}, hasty_store)
  /\ [1] = List.filter (is_low (heap hasty_store)) [0; 1]
  /\ [1] = List.filter (answer_blank (heap hasty_store)) [0; 1]
  /\ [(1, "context")] = flat_map (missing_of (heap hasty_store)) [0; 1].
Proof.
  assert (validate_qa_pairs hasty_store
          = (Ok {| missing_fields := [(1, "context")]; duplicate_questions := [];
                   empty_answers := [1]; low_confidence := [1];
                   orphaned_categories := [] |}, hasty_store)) as Hrun
    by (vm_compute; reflexivity).
  split; [reflexivity|]. split; [exact Hrun|].
  apply (validate_lists_entries_in_order hasty_store _ _ _ eq_refl Hrun).
Defined.

Lemma first_save_writes_one_file_witness :
  fs roth_store !! default (qa_data_file roth_store) (Some "copy.json") = None
  /\ ReadFails <> PrimaryWriteFails
  /\ save_qa_data (Some "copy.json") "20240101_000000" ReadFails roth_store
     = (Ok tt,
        set_fs (<[default (qa_data_file roth_store) (Some "copy.json")
                  := serialized roth_store]> (fs roth_store)) roth_store).
Proof.
  assert (fs roth_store !! default (qa_data_file roth_store) (Some "copy.json") = None)
    as Hf by (vm_compute; reflexivity).
  assert (ReadFails <> PrimaryWriteFails) as Hfault by discriminate.
  split; [exact Hf|]. split; [exact Hfault|].
  apply (first_save_writes_one_file roth_store (Some "copy.json") "20240101_000000"
           ReadFails Hf Hfault).
Defined.

Lemma interactive_add_entry_is_complete_witness :
  PyStr.strip " What is a SEP IRA? " <> EmptyString
  /\ PyStr.strip "A plan for the self-employed." <> EmptyString
  /\ PyStr.strip "SEP IRA basics" <> EmptyString
  /\ PyStr.strip "b" <> EmptyString
  /\ ensure_loaded (new_manager "kb.json" (fs roth_store)) = (Ok tt, roth_loaded)
  /\ qa_data roth_loaded
     = Some {| metadata := roth_metadata; qa_pairs := [0];
               categories := [("a", [1])] |}
  /\ fs roth_loaded !! qa_data_file roth_loaded <> Some NotJson
  /\ exists s' d',
       interactive_add " What is a SEP IRA? " "A plan for the self-employed."
         "SEP IRA basics" "b" " " "medium" "2024-01-01T00:00:00" "20240101_000000"
         NoFault (new_manager "kb.json" (fs roth_store)) = (Ok tt, s')
       /\ qa_data s' = Some d'
       /\ qa_pairs d' = [0] ++ [length (heap roth_loaded)]
       /\ heap s'
          = heap roth_loaded
            ++ [new_qa_pair (PyStr.strip " What is a SEP IRA? ")
                  (PyStr.strip "A plan for the self-employed.")
                  (PyStr.strip "SEP IRA basics") (PyStr.strip "b")
                  (input_or " " "Manual") (input_or "medium" "high")
                  "2024-01-01T00:00:00"]
       /\ Forall (fun field =>
                    field_missing (deref (heap s') (length (heap roth_loaded))) field
                    = false) required_fields
       /\ fs s' !! qa_data_file s' = Some (serialized s').
Proof.
  assert (PyStr.strip " What is a SEP IRA? " <> EmptyString) as Hq
    by (vm_compute; discriminate).
  assert (PyStr.strip "A plan for the self-employed." <> EmptyString) as Ha
    by (vm_compute; discriminate).
  assert (PyStr.strip "SEP IRA basics" <> EmptyString) as Hc
    by (vm_compute; discriminate).
  assert (PyStr.strip "b" <> EmptyString) as Hcat by (vm_compute; discriminate).
  assert (ensure_loaded (new_manager "kb.json" (fs roth_store)) = (Ok tt, roth_loaded))
    as Hload by (vm_compute; reflexivity).
  assert (fs roth_loaded !! qa_data_file roth_loaded <> Some NotJson) as Hfile
    by (vm_compute; discriminate).
  split; [exact Hq|]. split; [exact Ha|]. split; [exact Hc|]. split; [exact Hcat|].
  split; [exact Hload|]. split; [reflexivity|]. split; [exact Hfile|].
  destruct (interactive_add_entry_is_complete (new_manager "kb.json" (fs roth_store))
              " What is a SEP IRA? " "A plan for the self-employed." "SEP IRA basics"
              "b" " " "medium" "2024-01-01T00:00:00" "20240101_000000")
    as [_ Hadded].
  apply (Hadded Hq Ha Hc Hcat roth_loaded _ Hload eq_refl Hfile).
Defined.



Lemma roth_bucket_has_questions :
  Forall (fun r' => is_Some (deref (heap roth_store) r' !! "question"))
    (default [] (dict_get (categories roth_data) "a")).
Proof. repeat constructor. eexists. reflexivity. Defined.

Lemma delete_undoes_add_witness :
  qa_data roth_store = Some roth_data
  /\ Forall (fun r' => exists q, deref (heap roth_store) r' !! "question" = Some q
                                 /\ normalize q <> normalize "What is a 401k?")
       (qa_pairs roth_data)
  /\ Forall (fun r' => is_Some (deref (heap roth_store) r' !! "question"))
       (default [] (dict_get (categories roth_data) "a"))
  /\ exists s1,
       add_qa_pair "What is a 401k?" "An employer plan." "401k basics" "a" "Manual"
         "high" "2024-01-01T00:00:00" roth_store = (Ok 1, s1)
       /\ exists s2 d2,
            delete_qa_pair "What is a 401k?" s1 = (Ok true, s2)
            /\ qa_data s2 = Some d2
            /\ qa_pairs d2 = qa_pairs roth_data
            /\ total_qa_pairs (metadata d2) = total_qa_pairs (metadata roth_data)
            /\ dict_get (categories d2) "a"
               = Some (filter (fun r' => deref (heap roth_store) r' !! "question"
                                         <> Some "What is a 401k?")
                         (default [] (dict_get (categories roth_data) "a")))
            /\ meta_categories (metadata d2)
               = append_if_absent "a" (meta_categories (metadata roth_data)).
Proof.
  split; [reflexivity|]. split; [exact roth_store_lacks_401k|].
  split; [exact roth_bucket_has_questions|].
  exists (snd (add_qa_pair "What is a 401k?" "An employer plan." "401k basics" "a"
                 "Manual" "high" "2024-01-01T00:00:00" roth_store)).
  assert (add_qa_pair "What is a 401k?" "An employer plan." "401k basics" "a"
            "Manual" "high" "2024-01-01T00:00:00" roth_store
          = (Ok 1,
             snd (add_qa_pair "What is a 401k?" "An employer plan." "401k basics"
                    "a" "Manual" "high" "2024-01-01T00:00:00" roth_store))) as Hadd
    by (vm_compute; reflexivity).
  split; [exact Hadd|].
  apply (delete_undoes_add roth_store roth_data "What is a 401k?" "An employer plan."
           "401k basics" "a" "Manual" "high" "2024-01-01T00:00:00" 1 _ eq_refl
           roth_store_lacks_401k roth_bucket_has_questions Hadd).
Defined.
End StoreExtras.
